(** * KPluginMetaData: a shallow embedding of [src/lib/plugin/kpluginmetadata.cpp]

    The development has three layers.

    - [Module Qt]: the part of the Qt value classes the plugin code calls
      ([QJsonValue], [QJsonObject], [QVariant] string conversions,
      [QString::toInt], [QFileInfo::completeBaseName]), written after Qt's
      documented behaviour.
    - The process environment the code talks to (file system, plugin loader,
      static plugin registry, MIME database) gathered in the record [World].
    - The member functions of [KPluginMetaData], one definition per C++
      function, with the diagnostics they stream to [qCDebug]/[qCWarning]
      collected by a writer monad. *)

From Stdlib Require Import QArith Qcanon ZArith Ascii.
From Stdlib Require String.
From stdpp Require Import gmap strings list fin_maps.

Close Scope Q_scope.

(* ===================================================================== *)
(** ** The Qt value classes used by the plugin code                      *)
(* ===================================================================== *)

Module Qt.

(** [QJsonValue]: the seven kinds of [QJsonValue::Type].  A JSON number is
    a finite double; it is represented by the rational it denotes. *)
#[warnings="-register-all"] Inductive QJsonValue : Type :=
  | JNull
  | JBool (b : bool)
  | JDouble (d : Q)
  | JString (s : string)
  | JArray (a : list QJsonValue)
  | JObject (o : gmap string QJsonValue)
  | JUndefined.

(** [QJsonObject] is a finite map from keys to values. *)
Abbreviation QJsonObject := (gmap string QJsonValue).

Definition isNull (v : QJsonValue) : bool :=
  match v with JNull => true | _ => false end.
Definition isBool (v : QJsonValue) : bool :=
  match v with JBool _ => true | _ => false end.
Definition isDouble (v : QJsonValue) : bool :=
  match v with JDouble _ => true | _ => false end.
Definition isString (v : QJsonValue) : bool :=
  match v with JString _ => true | _ => false end.
Definition isArray (v : QJsonValue) : bool :=
  match v with JArray _ => true | _ => false end.
Definition isObject (v : QJsonValue) : bool :=
  match v with JObject _ => true | _ => false end.
Definition isUndefined (v : QJsonValue) : bool :=
  match v with JUndefined => true | _ => false end.

(** [QJsonValue::toBool(bool defaultValue = false)]. *)
Definition toBool (v : QJsonValue) : bool :=
  match v with JBool b => b | _ => false end.

(** [QJsonValue::toString(const QString &defaultValue)] and the nullary
    overload, whose default is the null (empty) string. *)
Definition toString_or (v : QJsonValue) (defaultValue : string) : string :=
  match v with JString s => s | _ => defaultValue end.
Definition toString (v : QJsonValue) : string := toString_or v "".

(** [QJsonValue::toObject()], [QJsonValue::toArray()]. *)
Definition toObject (v : QJsonValue) : QJsonObject :=
  match v with JObject o => o | _ => ∅ end.
Definition toArray (v : QJsonValue) : list QJsonValue :=
  match v with JArray a => a | _ => [] end.

(** The range of the C++ type [int]. *)
Definition INT_MIN : Z := - 2 ^ 31.
Definition INT_MAX : Z := 2 ^ 31 - 1.
Definition fitsInt (n : Z) : bool := (INT_MIN <=? n)%Z && (n <=? INT_MAX)%Z.

(** The whole number a double denotes, when it is one. *)
Definition wholeNumber (d : Q) : option Z :=
  let r := Qred d in
  if (Qden r =? 1)%positive then Some (Qnum r) else None.

(** [QJsonValue::toInt(int defaultValue = 0)]: the value when it is a
    double holding a whole number representable as [int], the default
    otherwise. *)
Definition toInt_or (v : QJsonValue) (defaultValue : Z) : Z :=
  match v with
  | JDouble d =>
      match wholeNumber d with
      | Some n => if fitsInt n then n else defaultValue
      | None => defaultValue
      end
  | _ => defaultValue
  end.
Definition toInt (v : QJsonValue) : Z := toInt_or v 0.

(** [QJsonObject::value(key)] and the const [operator[]]: the value stored
    under [key], [QJsonValue::Undefined] when there is none. *)
Definition value (o : QJsonObject) (key : string) : QJsonValue :=
  default JUndefined (o !! key).

(** [QJsonObject::isEmpty()]. *)
Definition isEmpty (o : QJsonObject) : bool := Nat.eqb (size o) 0.

(** [QString::isEmpty()]. *)
Definition QString_isEmpty (s : string) : bool :=
  match s with EmptyString => true | _ => false end.

(** [QString::lastIndexOf(QChar)], [None] standing for -1. *)
Fixpoint lastIndexOf (c : ascii) (s : string) : option nat :=
  match s with
  | EmptyString => None
  | String a r =>
      match lastIndexOf c r with
      | Some i => Some (S i)
      | None => if Ascii.eqb a c then Some 0 else None
      end
  end.

(** [QString::mid(position)]: the suffix starting at [position]. *)
Definition mid (s : string) (position : nat) : string :=
  String.substring position (String.length s - position) s.

(** [QFileInfo::fileName()]: what follows the last directory separator. *)
Definition QFileInfo_fileName (path : string) : string :=
  match lastIndexOf "/" path with
  | Some i => mid path (S i)
  | None => path
  end.

(** [QFileInfo::completeBaseName()]: the file name up to, and without, its
    last ['.']; the whole file name when it has none. *)
Definition completeBaseName (path : string) : string :=
  let name := QFileInfo_fileName path in
  match lastIndexOf "." name with
  | Some i => String.substring 0 i name
  | None => name
  end.

(** [QString::startsWith], [QString::endsWith], and
    [QString::replace(QChar before, QChar after)]. *)
Definition startsWith (s prefix : string) : bool := String.prefix prefix s.
Definition endsWith (s suffix : string) : bool :=
  String.prefix (String.rev suffix) (String.rev s).
Fixpoint replace (before after : ascii) (s : string) : string :=
  match s with
  | EmptyString => EmptyString
  | String a r =>
      String (if Ascii.eqb a before then after else a) (replace before after r)
  end.

(** [QStringList::contains] and [QStringList::join]. *)
Definition contains (l : list string) (s : string) : bool :=
  existsb (String.eqb s) l.
Definition join (l : list string) (separator : string) : string :=
  String.concat separator l.

(** [QString::toInt(bool *ok)], base 10: white space around the digits is
    ignored, one sign is accepted, and the conversion fails ([None], that is
    [*ok == false]) on anything else or when the number does not fit an
    [int]. *)
Definition isSpace (c : ascii) : bool :=
  let n := nat_of_ascii c in Nat.eqb n 32 || (Nat.leb 9 n && Nat.leb n 13).
Fixpoint skipSpaces (s : string) : string :=
  match s with
  | EmptyString => EmptyString
  | String a r => if isSpace a then skipSpaces r else s
  end.
Definition trimmed (s : string) : string :=
  String.rev (skipSpaces (String.rev (skipSpaces s))).
Definition digitValue (c : ascii) : option Z :=
  let n := nat_of_ascii c in
  if Nat.leb 48 n && Nat.leb n 57 then Some (Z.of_nat (n - 48)) else None.
Fixpoint digitsValue (s : string) (acc : Z) : option Z :=
  match s with
  | EmptyString => Some acc
  | String a r =>
      match digitValue a with
      | Some d => digitsValue r (10 * acc + d)%Z
      | None => None
      end
  end.
Definition unsignedValue (s : string) : option Z :=
  match s with
  | EmptyString => None
  | _ => digitsValue s 0
  end.
Definition QString_toInt (s : string) : option Z :=
  let t := trimmed s in
  let signed :=
    match t with
    | String "-" r => Z.opp <$> unsignedValue r
    | String "+" r => unsignedValue r
    | _ => unsignedValue t
    end in
  n ← signed; if fitsInt n then Some n else None.

(** [QJsonValue::toVariant().toString()]: strings as they are, booleans and
    numbers as text, everything else the null string.  [QString_number] is
    [QString::number(double)], the text of a double; its digits are of no
    concern here. *)
Definition variantToString (QString_number : Q → string) (v : QJsonValue)
  : string :=
  match v with
  | JString s => s
  | JBool b => if b then "true" else "false"
  | JDouble d => QString_number d
  | _ => ""
  end.

(** [QJsonValue::toVariant().toStringList()]: a list converts element by
    element, a string becomes a one-element list, and no other variant
    converts. *)
Definition variantToStringList (QString_number : Q → string) (v : QJsonValue)
  : list string :=
  match v with
  | JArray a => variantToString QString_number <$> a
  | JString s => [s]
  | _ => []
  end.

End Qt.

Import Qt.

(* ===================================================================== *)
(** ** The private data of a [KPluginMetaData]                            *)
(* ===================================================================== *)

(** [KPluginMetaData::KPluginMetaDataOption]. *)
Inductive KPluginMetaDataOption : Type :=
  | DoNotAllowEmptyMetaData
  | AllowEmptyMetaData.

Definition KPluginMetaDataOption_eqb (a b : KPluginMetaDataOption) : bool :=
  match a, b with
  | DoNotAllowEmptyMetaData, DoNotAllowEmptyMetaData => true
  | AllowEmptyMetaData, AllowEmptyMetaData => true
  | _, _ => false
  end.

(** [QStaticPlugin], as far as the code looks at it: the JSON object its
    [metaData()] returns. *)
Record QStaticPlugin : Type := { QStaticPlugin_metaData : QJsonObject }.

(** [class KPluginMetaDataPrivate]. *)
Record KPluginMetaData : Type := {
  m_requestedFileName : string;
  m_option : KPluginMetaDataOption;
  staticPlugin : option QStaticPlugin;
  m_metaData : QJsonObject;
  m_fileName : string
}.

(** [new KPluginMetaDataPrivate]: the members as their initialisers leave
    them. *)
Definition KPluginMetaDataPrivate_new : KPluginMetaData :=
  {| m_requestedFileName := "";
     m_option := DoNotAllowEmptyMetaData;
     staticPlugin := None;
     m_metaData := ∅;
     m_fileName := "" |}.

(** [KPluginMetaData(const QJsonObject &metaData, const QString &fileName)]:
    a fresh private object with the two members assigned. *)
Definition fromJsonAndFileName (metaData : QJsonObject) (fileName : string)
  : KPluginMetaData :=
  {| m_requestedFileName := "";
     m_option := DoNotAllowEmptyMetaData;
     staticPlugin := None;
     m_metaData := metaData;
     m_fileName := fileName |}.

Definition rawData (md : KPluginMetaData) : QJsonObject := m_metaData md.

Definition fileName (md : KPluginMetaData) : string := m_fileName md.

Definition rootObject (md : KPluginMetaData) : QJsonObject :=
  toObject (value (m_metaData md) "KPlugin").

(** [pluginId()]: [fromFile] is what the function returns once control has
    left the block guarded by [constFind] without returning. *)
Definition pluginId (md : KPluginMetaData) : string :=
  let root := rootObject md in
  let fromFile :=
    if QString_isEmpty (m_fileName md) then ""
    else completeBaseName (m_fileName md) in
  match root !! "Id" with
  | Some nameFromMetaData =>
      let id := toString nameFromMetaData in
      if negb (QString_isEmpty id) then id else fromFile
  | None => fromFile
  end.

Definition isValid (md : KPluginMetaData) : bool :=
  negb (QString_isEmpty (pluginId md))
  && (negb (isEmpty (m_metaData md))
      || KPluginMetaDataOption_eqb (m_option md) AllowEmptyMetaData).

Definition isHidden (md : KPluginMetaData) : bool :=
  toBool (value (rootObject md) "Hidden").

Definition isEnabledByDefault (md : KPluginMetaData) : bool :=
  let val := value (rootObject md) "EnabledByDefault" in
  if isBool val then toBool val
  else if isString val then String.eqb (toString val) "true"
  else false.

(* ===================================================================== *)
(** ** Diagnostics                                                        *)
(* ===================================================================== *)

(** The two severities the code logs with: [qCDebug] and [qCWarning]. *)
Inductive QtMsgType : Type := QtDebugMsg | QtWarningMsg.

(** What is streamed into a [QDebug] with [<<]. *)
Inductive LogItem : Type :=
  | Text (s : string)
  | TextList (l : list string)
  | Json (o : QJsonObject).

Record LogEntry : Type := { msgType : QtMsgType; items : list LogItem }.

(** A computation that returns an [A] and appends to the log. *)
Definition Logged (A : Type) : Type := A * list LogEntry.

Definition pure {A} (a : A) : Logged A := (a, []).

Definition bind {A B} (c : Logged A) (k : A → Logged B) : Logged B :=
  let r := k (fst c) in (fst r, snd c ++ snd r).

Notation "'let!' x := c 'in' k" := (bind c (fun x => k))
  (at level 10, x name, c at level 100, k at level 200).
Notation "c ;; k" := (bind c (fun _ => k))
  (at level 100, k at level 200, right associativity).

Definition qCDebug (l : list LogItem) : Logged unit :=
  (tt, [ {| msgType := QtDebugMsg; items := l |} ]).
Definition qCWarning (l : list LogItem) : Logged unit :=
  (tt, [ {| msgType := QtWarningMsg; items := l |} ]).

(** A range-based [for] whose body updates the state [s] and may log. *)
Fixpoint forEach {A S} (l : list A) (body : A → S → Logged S) (s : S)
  : Logged S :=
  match l with
  | [] => pure s
  | x :: r => let! s' := body x s in forEach r body s'
  end.

(* ===================================================================== *)
(** ** The environment                                                    *)
(* ===================================================================== *)

(** A [QPluginLoader] after [setFileName]. *)
Record QPluginLoader : Type := {
  loader_fileName : string;
  loader_metaData : QJsonObject;
  loader_errorString : string;
  loader_load : bool
}.

(** What [QJsonDocument::fromJson] makes of a byte array: a document, or a
    parse error, in which case the document returned is null. *)
Inductive QJsonDocument : Type :=
  | NullDocument
  | ObjectDocument (o : QJsonObject)
  | ArrayDocument (a : list QJsonValue).

Inductive ParseOutcome : Type :=
  | Parsed (doc : QJsonDocument)
  | ParseError (errorString : string).

(** [QJsonDocument::object()]: empty unless the document holds an object. *)
Definition QJsonDocument_object (doc : QJsonDocument) : QJsonObject :=
  match doc with ObjectDocument o => o | _ => ∅ end.

(** [KAboutPerson], declared in [kaboutdata.h]. *)
Record KAboutPerson : Type := {
  name : string;
  task : string;
  emailAddress : string
}.

(** Everything outside [kpluginmetadata.cpp] that its functions consult. *)
Record World : Type := {
  (** [Q_OS_ANDROID] was defined when the file was compiled *)
  Q_OS_ANDROID : bool;
  (** [QString::number(double)] *)
  QString_number : Q → string;
  (** [QCoreApplication::applicationDirPath()], [libraryPaths()] *)
  applicationDirPath : string;
  libraryPaths : list string;
  (** [QDir::isAbsolutePath] *)
  isAbsolutePath : string → bool;
  (** [QDirIterator it(dir, QDir::Files)]: for each file the iterator stops
      at, [it.fileName()] and [it.fileInfo().absoluteFilePath()] *)
  dirFiles : string → list (string * string);
  (** [QLibrary::isLibrary] *)
  isLibrary : string → bool;
  (** the state of a [QPluginLoader] once [setFileName] was called *)
  setFileName : string → QPluginLoader;
  (** [QFileInfo(path).absoluteFilePath()] *)
  absoluteFilePath : string → string;
  (** [KStaticPluginHelpers::staticPlugins(directory)] *)
  staticPlugins : string → list QStaticPlugin;
  (** [QFile::open(ReadOnly)] then [readAll()]; [None] when opening fails *)
  readFile : string → option string;
  (** the parser behind [QJsonDocument::fromJson] *)
  parseJson : string → ParseOutcome;
  (** [QMimeDatabase::mimeTypeForName(name).isValid()] *)
  mimeTypeIsValid : string → bool;
  (** [QMimeDatabase::mimeTypeForName(name).inherits(parent)] *)
  mimeTypeInherits : string → string → bool;
  (** [KAboutPerson::fromJSON], defined in [kaboutdata.cpp] *)
  KAboutPerson_fromJSON : QJsonObject → KAboutPerson
}.

(** [QJsonDocument::fromJson(bytes, &error)]: the document and
    [error.error != NoError] with its [errorString()]. *)
Definition QJsonDocument_fromJson (W : World) (bytes : string)
  : QJsonDocument * option string :=
  match parseJson W bytes with
  | Parsed doc => (doc, None)
  | ParseError e => (NullDocument, Some e)
  end.

(* ===================================================================== *)
(** ** The member functions                                               *)
(* ===================================================================== *)

(** [struct StaticPluginLoadResult]. *)
Record StaticPluginLoadResult : Type := {
  result_fileName : string;
  result_metaData : QJsonObject
}.

(** A [std::function<bool(const KPluginMetaData &)>], which may be empty. *)
Definition Filter : Type := option (KPluginMetaData → bool).

(** [!filter || filter(metaData)] *)
Definition passes (filter : Filter) (md : KPluginMetaData) : bool :=
  match filter with
  | None => true
  | Some f => f md
  end.

Section Members.
Variable W : World.

Definition forEachPlugin_dirsToCheck (directory : string) : list string :=
  if Q_OS_ANDROID W then libraryPaths W
  else if isAbsolutePath W directory then [directory]
  else
    let appDirPath := applicationDirPath W in
    let dirsToCheck :=
      appDirPath
        :: filter (λ p, p ≠ appDirPath) (libraryPaths W) in
    (λ libDir, libDir +:+ "/" +:+ directory) <$> dirsToCheck.

(** The test guarding [callback(...)] inside the directory loop. *)
Definition forEachPlugin_accepts (directory fileName : string) : bool :=
  if Q_OS_ANDROID W then
    let prefix := "libplugins_" +:+ replace "/" "_" directory in
    let prefix := if negb (endsWith prefix "_") then prefix +:+ "_" else prefix in
    startsWith fileName prefix && isLibrary W fileName
  else isLibrary W fileName.

Definition forEachPlugin {S} (directory : string)
    (callback : string → S → Logged S) (s : S) : Logged S :=
  let dirsToCheck := forEachPlugin_dirsToCheck directory in
  qCDebug [Text "Checking for plugins in"; TextList dirsToCheck] ;;
  forEach dirsToCheck (λ dir s,
    forEach (dirFiles W dir) (λ it s,
      if forEachPlugin_accepts directory (fst it)
      then callback (snd it) s
      else pure s) s) s.

(** [loadStaticPlugin] assigns [staticPlugin] and [m_option] of the object
    it is called on and returns the file name and the metadata. *)
Definition loadStaticPlugin (d : KPluginMetaData) (plugin : QStaticPlugin)
    (option : KPluginMetaDataOption)
  : KPluginMetaData * StaticPluginLoadResult :=
  let metaDataObject := toObject (value (QStaticPlugin_metaData plugin) "MetaData") in
  let names :=
    variantToStringList (QString_number W)
      (value (QStaticPlugin_metaData plugin) "X-KDE-FileName") in
  let fileName := match names with first :: _ => first | [] => "" end in
  ({| m_requestedFileName := m_requestedFileName d;
      m_option := option;
      staticPlugin := Some plugin;
      m_metaData := m_metaData d;
      m_fileName := m_fileName d |},
   {| result_fileName := fileName; result_metaData := metaDataObject |}).

Definition getPluginLoaderForPath (path : string) : QPluginLoader :=
  if startsWith path "/" then setFileName W path
  else
    let loader := setFileName W (applicationDirPath W +:+ "/" +:+ path) in
    if QString_isEmpty (loader_fileName loader) then setFileName W path
    else loader.

(** [KPluginMetaData(const QString &pluginFile, KPluginMetaDataOption)]. *)
Definition fromPluginFile (pluginFile : string) (option : KPluginMetaDataOption)
  : Logged KPluginMetaData :=
  let loader := getPluginLoaderForPath pluginFile in
  let d metaData :=
    {| m_requestedFileName := pluginFile;
       m_option := option;
       staticPlugin := None;
       m_metaData := metaData;
       m_fileName := absoluteFilePath W (loader_fileName loader) |} in
  let qtMetaData := loader_metaData loader in
  if negb (isEmpty qtMetaData) then
    let metaData := toObject (value qtMetaData "MetaData") in
    (if isEmpty metaData && KPluginMetaDataOption_eqb option DoNotAllowEmptyMetaData
     then qCDebug [Text "plugin metadata in"; Text pluginFile;
                   Text "does not have a valid 'MetaData' object"]
     else pure tt) ;;
    pure (d metaData)
  else
    qCDebug [Text "no metadata found in"; Text pluginFile;
             Text (loader_errorString loader)] ;;
    pure (d ∅).

(** The default constructor [KPluginMetaData() : KPluginMetaData({}, {})].
    Of the two-argument constructors, overload resolution takes
    [(const QString &, KPluginMetaDataOption)]: an empty initializer list
    value-initializes the enumeration, an identity conversion, where the
    second parameter of [(const QJsonObject &, const QString &)] needs a
    user-defined one.  So every [KPluginMetaData x;] runs the plugin loader
    on the empty path, with [DoNotAllowEmptyMetaData], and logs what that
    constructor logs. *)
Definition defaultConstructed : Logged KPluginMetaData :=
  fromPluginFile "" DoNotAllowEmptyMetaData.

(** [KPluginMetaData(QStaticPlugin plugin, const QJsonObject &metaData)]. *)
Definition fromStaticPlugin (plugin : QStaticPlugin) (metaData : QJsonObject)
  : KPluginMetaData :=
  let '(d, result) :=
    loadStaticPlugin KPluginMetaDataPrivate_new plugin DoNotAllowEmptyMetaData in
  {| m_requestedFileName := m_requestedFileName d;
     m_option := m_option d;
     staticPlugin := staticPlugin d;
     m_metaData :=
       if isEmpty (result_metaData result) then metaData
       else result_metaData result;
     m_fileName := result_fileName result |}.

(** [loadFromJsonFile] replaces the private object of [this]. *)
Definition loadFromJsonFile (this : KPluginMetaData) (file : string)
  : Logged KPluginMetaData :=
  let d := KPluginMetaDataPrivate_new in
  match readFile W file with
  | None => qCWarning [Text "Couldn't open"; Text file] ;; pure d
  | Some bytes =>
      let '(doc, error) := QJsonDocument_fromJson W bytes in
      (match error with
       | Some errorString =>
           qCWarning [Text "error parsing"; Text file; Text errorString]
       | None => pure tt
       end) ;;
      pure {| m_requestedFileName := m_requestedFileName d;
              m_option := m_option d;
              staticPlugin := staticPlugin d;
              m_metaData := QJsonDocument_object doc;
              m_fileName := absoluteFilePath W file |}
  end.

(** [fromJsonFile]: [KPluginMetaData result;] is a default construction. *)
Definition fromJsonFile (file : string) : Logged KPluginMetaData :=
  let! result := defaultConstructed in
  loadFromJsonFile result file.

(** The body of the loop over the static plugins in [findPlugins]:
    [KPluginMetaData metaData;] is a default construction, and the three
    statements after it assign every member but [m_requestedFileName]. *)
Definition findPlugins_static (filter : Filter) (option : KPluginMetaDataOption)
    (p : QStaticPlugin) (ret : list KPluginMetaData)
  : Logged (list KPluginMetaData) :=
  let! metaData := defaultConstructed in
  let '(d, loadingResult) := loadStaticPlugin metaData p option in
  let metaData :=
    {| m_requestedFileName := m_requestedFileName d;
       m_option := m_option d;
       staticPlugin := staticPlugin d;
       m_metaData := result_metaData loadingResult;
       m_fileName := result_fileName loadingResult |} in
  pure (if isValid metaData then
          if passes filter metaData then ret ++ [metaData] else ret
        else ret).

(** The lambda handed to [forEachPlugin] in [findPlugins]; it captures
    [addedPluginIds] and [ret] by reference. *)
Definition findPlugins_callback (filter : Filter) (option : KPluginMetaDataOption)
    (pluginFile : string) (captured : gset string * list KPluginMetaData)
  : Logged (gset string * list KPluginMetaData) :=
  let '(addedPluginIds, ret) := captured in
  let! metadata := fromPluginFile pluginFile option in
  if negb (isValid metadata) then
    qCDebug [Text pluginFile; Text "does not contain valid JSON metadata"] ;;
    pure captured
  else if bool_decide (pluginId metadata ∈ addedPluginIds) then pure captured
  else if negb (passes filter metadata) then pure captured
  else pure ({[pluginId metadata]} ∪ addedPluginIds, ret ++ [metadata]).

Definition findPlugins (directory : string) (filter : Filter)
    (option : KPluginMetaDataOption) : Logged (list KPluginMetaData) :=
  let! ret :=
    forEach (staticPlugins W directory) (findPlugins_static filter option) [] in
  let addedPluginIds : gset string := ∅ in
  let! captured :=
    forEachPlugin directory (findPlugins_callback filter option)
      (addedPluginIds, ret) in
  pure (snd captured).

Definition addPersonFromJson (obj : QJsonObject) (out : list KAboutPerson)
  : Logged (list KAboutPerson) :=
  let person := KAboutPerson_fromJSON W obj in
  if QString_isEmpty (name person) then
    qCWarning [Text "Invalid plugin metadata: Attempting to create a KAboutPerson from json without 'Name' property:";
               Json obj] ;;
    pure out
  else pure (out ++ [person]).

Definition aboutPersonFromJSON (people : QJsonValue) : Logged (list KAboutPerson) :=
  let ret : list KAboutPerson := [] in
  if isObject people then addPersonFromJson (toObject people) ret
  else if isArray people then
    forEach (toArray people) (λ val ret,
      if isObject val then addPersonFromJson (toObject val) ret
      else pure ret) ret
  else pure ret.

Definition authors (md : KPluginMetaData) : Logged (list KAboutPerson) :=
  aboutPersonFromJSON (value (rootObject md) "Authors").

Definition translators (md : KPluginMetaData) : Logged (list KAboutPerson) :=
  aboutPersonFromJSON (value (rootObject md) "Translators").

Definition otherContributors (md : KPluginMetaData) : Logged (list KAboutPerson) :=
  aboutPersonFromJSON (value (rootObject md) "OtherContributors").

Definition mimeTypes (md : KPluginMetaData) : list string :=
  variantToStringList (QString_number W) (value (rootObject md) "MimeTypes").

Definition supportsMimeType (md : KPluginMetaData) (mimeType : string) : bool :=
  let mimes := mimeTypes md in
  if contains mimes mimeType then true
  else if negb (mimeTypeIsValid W mimeType) then false
  else existsb (λ supportedMimeName, mimeTypeInherits W mimeType supportedMimeName) mimes.

(** [QString value(const QString &key, const QString &defaultValue)] *)
Definition value_QString (md : KPluginMetaData) (key defaultValue : string)
  : Logged string :=
  let value := value (m_metaData md) key in
  if isString value then pure (toString_or value defaultValue)
  else if isArray value then
    qCWarning [Text "Expected JSON property"; Text key;
               Text "to be a single string. but it is a stringlist"] ;;
    pure (join (variantToStringList (QString_number W) value) ",")
  else if isBool value then
    qCWarning [Text "Expected JSON property"; Text key;
               Text "to be a single string. but it is a bool"] ;;
    pure (if toBool value then "true" else "false")
  else pure defaultValue.

(** [bool value(const QString &key, bool defaultValue)] *)
Definition value_bool (md : KPluginMetaData) (key : string) (defaultValue : bool)
  : bool :=
  let value := value (m_metaData md) key in
  if isBool value then toBool value
  else if isString value then String.eqb (toString value) "true"
  else defaultValue.

(** [int value(const QString &key, int defaultValue)] *)
Definition value_int (md : KPluginMetaData) (key : string) (defaultValue : Z)
  : Logged Z :=
  let value := value (m_metaData md) key in
  if isDouble value then pure (toInt value)
  else if isString value then
    let intString := toString value in
    match QString_toInt intString with
    | Some convertedIntValue => pure convertedIntValue
    | None =>
        qCWarning [Text "Expected"; Text key; Text "to be an int, instead";
                   Text intString;
                   Text "was specified in the json metadata";
                   Text (m_fileName md)] ;;
        pure defaultValue
    end
  else pure defaultValue.

(** [QStringList value(const QString &key, const QStringList &defaultValue)] *)
Definition value_QStringList (md : KPluginMetaData) (key : string)
    (defaultValue : list string) : Logged (list string) :=
  let value := value (m_metaData md) key in
  if isUndefined value || isNull value then pure defaultValue
  else if isObject value then
    qCWarning [Text "Expected JSON property"; Text key;
               Text "to be a string list, instead an object was specified in the json metadata";
               Text (m_fileName md)] ;;
    pure defaultValue
  else if isArray value then pure (variantToStringList (QString_number W) value)
  else
    let asString :=
      if isString value then toString value
      else variantToString (QString_number W) value in
    if QString_isEmpty asString then pure defaultValue
    else
      qCDebug [Text "Expected JSON property"; Text key;
               Text "to be a string list in the json metadata";
               Text (m_fileName md);
               Text "Treating it as a list with a single entry:";
               Text asString] ;;
      pure [asString].

End Members.

(* ===================================================================== *)
(** ** Reference notions the theorems are stated with                     *)
(* ===================================================================== *)

(** The files [forEachPlugin] hands to its callback, in the order of the
    calls: directory by directory, each in iteration order. *)
Definition pluginFiles (W : World) (directory : string) : list string :=
  flat_map
    (λ dir, snd <$> filter (λ it, forEachPlugin_accepts W directory (fst it))
                      (dirFiles W dir))
    (forEachPlugin_dirsToCheck W directory).

(** Keeping of every identifier the first entry only. *)
Fixpoint firstOccurrences (l : list KPluginMetaData) : list KPluginMetaData :=
  match l with
  | [] => []
  | md :: r => md :: filter (λ m, pluginId m ≠ pluginId md) (firstOccurrences r)
  end.

(** The static entries of [findPlugins]: what its loop over the static
    plugins leaves in [ret]. *)
Definition staticEntries (W : World) (directory : string) (accept : Filter)
    (option : KPluginMetaDataOption) : list KPluginMetaData :=
  fst (forEach (staticPlugins W directory)
         (findPlugins_static W accept option) []).

(** The metadata of the files on disk that are valid and pass the filter. *)
Definition diskCandidates (W : World) (directory : string) (accept : Filter)
    (option : KPluginMetaDataOption) : list KPluginMetaData :=
  filter (λ md, isValid md && passes accept md)
    ((λ pluginFile, fst (fromPluginFile W pluginFile option))
       <$> pluginFiles W directory).

(** The same world with another MIME database. *)
Definition withMimeDatabase (W : World) (valid : string → bool)
    (inherits : string → string → bool) : World :=
  {| Q_OS_ANDROID := Q_OS_ANDROID W;
     QString_number := QString_number W;
     applicationDirPath := applicationDirPath W;
     libraryPaths := libraryPaths W;
     isAbsolutePath := isAbsolutePath W;
     dirFiles := dirFiles W;
     isLibrary := isLibrary W;
     setFileName := setFileName W;
     absoluteFilePath := absoluteFilePath W;
     staticPlugins := staticPlugins W;
     readFile := readFile W;
     parseJson := parseJson W;
     mimeTypeIsValid := valid;
     mimeTypeInherits := inherits;
     KAboutPerson_fromJSON := KAboutPerson_fromJSON W |}.

(** The JSON objects a person list is read from: the object itself, or the
    objects among the elements of an array. *)
Definition personObjects (people : QJsonValue) : list QJsonObject :=
  match people with
  | JObject o => [o]
  | JArray a => omap (λ val, match val with JObject o => Some o | _ => None end) a
  | _ => []
  end.

(** The entry [addPersonFromJson] logs for an object without a name. *)
Definition invalidPersonWarning (obj : QJsonObject) : LogEntry :=
  {| msgType := QtWarningMsg;
     items := [Text "Invalid plugin metadata: Attempting to create a KAboutPerson from json without 'Name' property:";
               Json obj] |}.

(** The persons a list is meant to hold: those read from [personObjects]
    whose name is not empty; and the objects left out. *)
Definition namedPersons (W : World) (people : QJsonValue) : list KAboutPerson :=
  filter (λ person, name person ≠ "")
    (KAboutPerson_fromJSON W <$> personObjects people).
Definition namelessObjects (W : World) (people : QJsonValue) : list QJsonObject :=
  filter (λ obj, name (KAboutPerson_fromJSON W obj) = "") (personObjects people).

(** [accessor] looks at a metadata object through [view] only. *)
Definition determinedBy {V R} (view : KPluginMetaData → V)
    (accessor : KPluginMetaData → R) : Prop :=
  ∀ md1 md2, view md1 = view md2 → accessor md1 = accessor md2.

(* ===================================================================== *)
(** ** A sample installation                                              *)
(* ===================================================================== *)

(** The two descriptors of the specification's examples. *)
Definition descriptorWithId (id : string) : QJsonObject :=
  {[ "KPlugin" := JObject {[ "Id" := JString id ]} ]}.
Definition descriptorWithoutId : QJsonObject :=
  {[ "KPlugin" := JObject {[ "Name" := JString "My plugin" ]} ]}.

(** A metadata object whose ["KPlugin"] object declares MIME types. *)
Definition descriptorWithMimeTypes (mimes : list string) : QJsonObject :=
  {[ "KPlugin" := JObject {[ "MimeTypes" := JArray (JString <$> mimes) ]} ]}.

(** A plugin that declares [text/plain] and nothing else. *)
Definition textPlugin : KPluginMetaData :=
  fromJsonAndFileName (descriptorWithMimeTypes ["text/plain"]) "".

(** Metadata that holds [inner] under ["X-Test"] inside the ["KPlugin"]
    object only, and metadata that also holds [outer] under ["X-Test"] at
    the top level. *)
Definition nestedOnly (inner : QJsonValue) : KPluginMetaData :=
  fromJsonAndFileName {[ "KPlugin" := JObject {[ "X-Test" := inner ]} ]} "".
Definition nestedAndTopLevel (inner outer : QJsonValue) : KPluginMetaData :=
  fromJsonAndFileName
    {[ "KPlugin" := JObject {[ "X-Test" := inner ]}; "X-Test" := outer ]} "".

(** Metadata with custom properties of several JSON types. *)
Definition countedPlugin : KPluginMetaData :=
  fromJsonAndFileName
    {[ "KPlugin" := JObject {[ "Id" := JString "counted" ]};
       "X-Count" := JString "42";
       "X-Size" := JDouble (inject_Z 7);
       "X-Ratio" := JDouble (1 # 2);
       "X-Huge" := JDouble (inject_Z 4294967296);
       "X-Broken" := JString "4x2" ]} "/plugins/counted.so".

(** What a plugin binary or a static plugin embeds around a descriptor. *)
Definition embedded (descriptor : QJsonObject) : QJsonObject :=
  {[ "IID" := JString "org.kde.sample"; "MetaData" := JObject descriptor ]}.

(** One directory [/plugins] with two plugin binaries that both declare the
    identifier [foo], a static plugin registered for the same directory with
    that identifier too, a JSON file that cannot be parsed, and a MIME
    database in which [text/x-csrc] inherits [text/plain]. *)
Definition sampleWorld : World :=
  {| Q_OS_ANDROID := false;
     QString_number := λ _, "0";
     applicationDirPath := "/usr/bin";
     libraryPaths := ["/usr/lib/qt/plugins"; "/usr/bin"];
     isAbsolutePath := λ path, startsWith path "/";
     dirFiles := λ dir,
       if String.eqb dir "/plugins"
       then [("foo.so", "/plugins/foo.so"); ("README", "/plugins/README");
             ("bar.so", "/plugins/bar.so")]
       else [];
     isLibrary := λ fileName, endsWith fileName ".so";
     setFileName := λ path,
       {| loader_fileName := path;
          loader_metaData :=
            if String.eqb path "/plugins/foo.so" || String.eqb path "/plugins/bar.so"
            then embedded (descriptorWithId "foo") else ∅;
          loader_errorString := "";
          loader_load := endsWith path ".so" |};
     absoluteFilePath := λ path, path;
     staticPlugins := λ dir,
       if String.eqb dir "/plugins"
       then [ {| QStaticPlugin_metaData := embedded (descriptorWithId "foo") |} ]
       else [];
     readFile := λ file,
       if String.eqb file "/etc/broken.json" then Some "{" else None;
     parseJson := λ bytes,
       if String.eqb bytes "{" then ParseError "unterminated object"
       else Parsed NullDocument;
     mimeTypeIsValid := λ mimeType,
       String.eqb mimeType "text/plain" || String.eqb mimeType "text/x-csrc";
     mimeTypeInherits := λ mimeType parent,
       String.eqb mimeType parent
       || (String.eqb mimeType "text/x-csrc" && String.eqb parent "text/plain");
     KAboutPerson_fromJSON := λ obj,
       {| name := toString (value obj "Name");
          task := toString (value obj "Task");
          emailAddress := toString (value obj "Email") |} |}.

(* ===================================================================== *)
(** ** Further member functions                                           *)
(* ===================================================================== *)

(** [isStaticPlugin()]: [d->staticPlugin.has_value()]. *)
Definition isStaticPlugin (md : KPluginMetaData) : bool :=
  match staticPlugin md with Some _ => true | None => false end.

(** [requestedFileName()]. *)
Definition requestedFileName (md : KPluginMetaData) : string :=
  m_requestedFileName md.

Section Lookup.
Variable W : World.

(** The object the loops over the static plugins make of one of them, in
    [findPluginById] (with [DoNotAllowEmptyMetaData]) as in [findPlugins]:
    a default-constructed object, [loadStaticPlugin] called on it, and the
    file name and metadata assigned from the result. *)
Definition staticMetaData (p : QStaticPlugin) (option : KPluginMetaDataOption)
  : KPluginMetaData :=
  let '(d, loadingResult) :=
    loadStaticPlugin W (fst (defaultConstructed W)) p option in
  {| m_requestedFileName := m_requestedFileName d;
     m_option := m_option d;
     staticPlugin := staticPlugin d;
     m_metaData := result_metaData loadingResult;
     m_fileName := result_fileName loadingResult |}.

(** The loop of [findPluginById] over the static plugins; [Some] is the
    [return metaData] inside the loop.  Each round default-constructs
    [metaData] and assigns to it as the loop of [findPlugins] does. *)
Fixpoint findPluginById_static (staticPlugins : list QStaticPlugin)
    (pluginId_ : string) : Logged (option KPluginMetaData) :=
  match staticPlugins with
  | [] => pure None
  | p :: rest =>
      let! metaData := defaultConstructed W in
      let '(d, loadingResult) :=
        loadStaticPlugin W metaData p DoNotAllowEmptyMetaData in
      let metaData :=
        {| m_requestedFileName := m_requestedFileName d;
           m_option := m_option d;
           staticPlugin := staticPlugin d;
           m_metaData := result_metaData loadingResult;
           m_fileName := result_fileName loadingResult |} in
      if isValid metaData && String.eqb (pluginId metaData) pluginId_
      then pure (Some metaData)
      else findPluginById_static rest pluginId_
  end.

(** The first half of [findPluginById]: the module at
    [directory/pluginId], when it loads and names the identifier. *)
Definition findPluginById_loader (directory pluginId_ : string)
  : option KPluginMetaData :=
  let loader := getPluginLoaderForPath W (directory +:+ "/" +:+ pluginId_) in
  if loader_load loader then
    let metaData :=
      fromJsonAndFileName (toObject (value (loader_metaData loader) "MetaData"))
        (loader_fileName loader) in
    if isValid metaData && String.eqb (pluginId metaData) pluginId_
    then Some metaData
    else None
  else None.

(** [findPluginById]; its last statement, [return KPluginMetaData{}], is
    a default construction. *)
Definition findPluginById (directory pluginId_ : string)
  : Logged KPluginMetaData :=
  match findPluginById_loader directory pluginId_ with
  | Some metaData => pure metaData
  | None =>
      let! found :=
        findPluginById_static (staticPlugins W directory) pluginId_ in
      match found with
      | Some metaData => pure metaData
      | None => defaultConstructed W
      end
  end.

End Lookup.

(** The files [forEachPlugin] calls its callback with: the function run with
    a callback that appends its argument to a list. *)
Definition visitedFiles (W : World) (directory : string) : list string :=
  fst (forEachPlugin W directory
         (λ pluginFile visited, pure (visited ++ [pluginFile])) []).

(** The sample installation without its static plugin, and with two JSON
    files: a descriptor and a document that is a list. *)
Definition diskOnlyWorld : World :=
  {| Q_OS_ANDROID := false;
     QString_number := QString_number sampleWorld;
     applicationDirPath := applicationDirPath sampleWorld;
     libraryPaths := libraryPaths sampleWorld;
     isAbsolutePath := isAbsolutePath sampleWorld;
     dirFiles := dirFiles sampleWorld;
     isLibrary := isLibrary sampleWorld;
     setFileName := setFileName sampleWorld;
     absoluteFilePath := absoluteFilePath sampleWorld;
     staticPlugins := λ _, [];
     readFile := λ file,
       if String.eqb file "/etc/foo.json" then Some "foo descriptor"
       else if String.eqb file "/etc/list.json" then Some "[]"
       else None;
     parseJson := λ bytes,
       if String.eqb bytes "foo descriptor"
       then Parsed (ObjectDocument (descriptorWithId "foo"))
       else if String.eqb bytes "[]" then Parsed (ArrayDocument [])
       else ParseError "illegal value";
     mimeTypeIsValid := mimeTypeIsValid sampleWorld;
     mimeTypeInherits := mimeTypeInherits sampleWorld;
     KAboutPerson_fromJSON := KAboutPerson_fromJSON sampleWorld |}.

(** The sample installation built for Android, its libraries flattened into
    one directory. *)
Definition androidWorld : World :=
  {| Q_OS_ANDROID := true;
     QString_number := QString_number sampleWorld;
     applicationDirPath := "/data/app/lib";
     libraryPaths := ["/data/app/lib"];
     isAbsolutePath := isAbsolutePath sampleWorld;
     dirFiles := λ dir,
       if String.eqb dir "/data/app/lib"
       then [("libplugins_kf5_parts_foo.so", "/data/app/lib/libplugins_kf5_parts_foo.so");
             ("libQt5Core.so", "/data/app/lib/libQt5Core.so")]
       else [];
     isLibrary := isLibrary sampleWorld;
     setFileName := λ path,
       {| loader_fileName := path;
          loader_metaData :=
            if String.eqb path "/data/app/lib/libplugins_kf5_parts_foo.so"
            then embedded (descriptorWithId "foo") else ∅;
          loader_errorString := "";
          loader_load := endsWith path ".so" |};
     absoluteFilePath := absoluteFilePath sampleWorld;
     staticPlugins := λ _, [];
     readFile := readFile sampleWorld;
     parseJson := parseJson sampleWorld;
     mimeTypeIsValid := mimeTypeIsValid sampleWorld;
     mimeTypeInherits := mimeTypeInherits sampleWorld;
     KAboutPerson_fromJSON := KAboutPerson_fromJSON sampleWorld |}.

(** A static plugin that embeds nothing. *)
Definition bareStaticPlugin : QStaticPlugin :=
  {| QStaticPlugin_metaData := ∅ |}.

(** Metadata with boolean-like custom properties. *)
Definition flaggedPlugin : KPluginMetaData :=
  fromJsonAndFileName
    {[ "KPlugin" := JObject {[ "Id" := JString "flagged";
                               "Hidden" := JString "true";
                               "MimeTypes" := JString "text/plain" ]};
       "X-Enabled" := JString "false";
       "X-Label" := JString "";
       "X-Tags" := JArray [JString "a"; JString "b"];
       "X-Nested" := JObject ∅ ]} "/plugins/flagged.so".

(* ===================================================================== *)
(** ** Basic facts about the Qt layer                                     *)
(* ===================================================================== *)

Lemma QString_isEmpty_true (s : string) : QString_isEmpty s = true ↔ s = "".
Proof. destruct s; simpl; split; congruence. Qed.

Lemma QString_isEmpty_false (s : string) : QString_isEmpty s = false ↔ s ≠ "".
Proof. destruct s; simpl; split; congruence. Qed.

Lemma isEmpty_true (o : QJsonObject) : isEmpty o = true ↔ o = ∅.
Proof.
  unfold isEmpty. rewrite Nat.eqb_eq. apply map_size_empty_iff.
Qed.

Lemma isEmpty_false (o : QJsonObject) : isEmpty o = false ↔ o ≠ ∅.
Proof.
  rewrite <- isEmpty_true. destruct (isEmpty o); split; congruence.
Qed.

Lemma KPluginMetaDataOption_eqb_eq (a b : KPluginMetaDataOption) :
  KPluginMetaDataOption_eqb a b = true ↔ a = b.
Proof. destruct a, b; simpl; split; congruence. Qed.

(* ===================================================================== *)
(** ** Construction and the derived identifier                            *)
(* ===================================================================== *)

(** C8: constructing from a JSON object [J] and a path [P] stores both as
    they are: [rawData()] gives back exactly [J] and [fileName()] exactly
    [P], whatever [J] and [P] are. *)
Theorem construction_roundtrip (J : QJsonObject) (P : string) :
  rawData (fromJsonAndFileName J P) = J
  ∧ fileName (fromJsonAndFileName J P) = P.
Proof. split; reflexivity. Qed.

(** C2: [isValid()] holds exactly when [pluginId()] is not empty and the raw
    JSON object is not empty or the instance carries [AllowEmptyMetaData]. *)
Theorem isValid_iff (md : KPluginMetaData) :
  isValid md = true
  ↔ pluginId md ≠ ""
    ∧ (rawData md ≠ ∅ ∨ m_option md = AllowEmptyMetaData).
Proof.
  unfold isValid, rawData.
  rewrite andb_true_iff, orb_true_iff, !negb_true_iff.
  rewrite QString_isEmpty_false, isEmpty_false, KPluginMetaDataOption_eqb_eq.
  reflexivity.
Qed.

(** What [pluginId()] falls back to when the metadata names no identifier. *)
Lemma pluginId_without_Id (md : KPluginMetaData) :
  (rootObject md !! "Id" = None
   ∨ ∃ v, rootObject md !! "Id" = Some v ∧ toString v = "") →
  pluginId md
  = if QString_isEmpty (fileName md) then ""
    else completeBaseName (fileName md).
Proof.
  unfold pluginId, fileName. intros [-> | (v & -> & Hv)]; [reflexivity|].
  now rewrite Hv.
Qed.

(** C3, as the code has it: a non-empty string under ["Id"] in the
    ["KPlugin"] object is the identifier whatever the file path; when the
    key is absent, or what it holds is not a non-empty string, the identifier
    is the complete base name of the file path, and the empty string when
    there is no file path. *)
Theorem pluginId_resolution_order (md : KPluginMetaData) :
  (∀ id, rootObject md !! "Id" = Some (JString id) → id ≠ "" →
         pluginId md = id)
  ∧ ((rootObject md !! "Id" = None
      ∨ ∃ v, rootObject md !! "Id" = Some v ∧ toString v = "") →
     (fileName md ≠ "" → pluginId md = completeBaseName (fileName md))
     ∧ (fileName md = "" → pluginId md = "")).
Proof.
  split.
  - intros id Hid Hne. unfold pluginId. rewrite Hid. simpl.
    apply QString_isEmpty_false in Hne. now rewrite Hne.
  - intros H. rewrite (pluginId_without_Id md H). split.
    + intros Hf. apply QString_isEmpty_false in Hf. now rewrite Hf.
    + intros Hf. apply QString_isEmpty_true in Hf. now rewrite Hf.
Qed.

Lemma pluginId_resolution_order_witness :
  pluginId (fromJsonAndFileName (descriptorWithId "foo") "/a/b/myplugin.so") = "foo"
  ∧ pluginId (fromJsonAndFileName descriptorWithoutId "/a/b/myplugin.so") = "myplugin"
  ∧ pluginId (fromJsonAndFileName descriptorWithoutId "") = "".
Proof.
  split; [|split].
  - apply (proj1 (pluginId_resolution_order
                    (fromJsonAndFileName (descriptorWithId "foo") "/a/b/myplugin.so")) "foo");
      [reflexivity | discriminate].
  - apply (proj2 (pluginId_resolution_order
                    (fromJsonAndFileName descriptorWithoutId "/a/b/myplugin.so")));
      [left; reflexivity | discriminate].
  - apply (proj2 (pluginId_resolution_order
                    (fromJsonAndFileName descriptorWithoutId "")));
      [left; reflexivity | reflexivity].
Defined.

(** C3 as it is worded fails: an ["Id"] that is present but empty is not
    returned; with the file path [/a/b/x.so] the identifier is ["x"]. *)
Lemma pluginId_present_Id_counterexample :
  ¬ (∀ md id, rootObject md !! "Id" = Some (JString id) → pluginId md = id).
Proof.
  intros H.
  specialize (H (fromJsonAndFileName (descriptorWithId "") "/a/b/x.so") ""
                eq_refl).
  vm_compute in H. discriminate H.
Qed.

(** C10: [isEnabledByDefault()] is the boolean stored under
    ["EnabledByDefault"] in the ["KPlugin"] object; for a string it is true
    exactly when the string is ["true"]; it is false when the key is absent
    or holds anything else. *)
Theorem isEnabledByDefault_cases (md : KPluginMetaData) :
  match rootObject md !! "EnabledByDefault" with
  | Some (JBool b) => isEnabledByDefault md = b
  | Some (JString s) => isEnabledByDefault md = true ↔ s = "true"
  | _ => isEnabledByDefault md = false
  end.
Proof.
  unfold isEnabledByDefault, value.
  destruct (rootObject md !! "EnabledByDefault") as [[]|]; simpl; try reflexivity.
  apply String.eqb_eq.
Qed.

(* ===================================================================== *)
(** ** Discovery                                                          *)
(* ===================================================================== *)

Section Discovery.
Variable W : World.

Lemma fst_bind {A B} (c : Logged A) (k : A → Logged B) :
  fst (bind c k) = fst (k (fst c)).
Proof. reflexivity. Qed.

(** The value of a loop is a left fold of the values of its body. *)
Lemma fst_forEach {A S} (body : A → S → Logged S) (l : list A) (s : S) :
  fst (forEach l body s) = fold_left (λ s x, fst (body x s)) l s.
Proof.
  revert s. induction l as [|x l IH]; intros s; simpl; [reflexivity|].
  now rewrite IH.
Qed.

(** The callback of [forEachPlugin] runs on [pluginFiles], in that order. *)
Lemma fst_forEachPlugin {S} (directory : string)
    (callback : string → S → Logged S) (s : S) :
  fst (forEachPlugin W directory callback s)
  = fold_left (λ s pluginFile, fst (callback pluginFile s))
      (pluginFiles W directory) s.
Proof.
  unfold forEachPlugin, pluginFiles. rewrite fst_bind, fst_forEach.
  generalize (forEachPlugin_dirsToCheck W directory) as dirs.
  intros dirs. revert s.
  induction dirs as [|dir dirs IH]; intros s; simpl; [reflexivity|].
  rewrite fold_left_app, <- IH. f_equal.
  rewrite fst_forEach. clear IH.
  generalize (dirFiles W dir) as files. intros files. revert s.
  induction files as [|it files IH]; intros s; simpl; [reflexivity|].
  rewrite filter_cons.
  destruct (forEachPlugin_accepts W directory (fst it)); simpl; apply IH.
Qed.

(** One call of the callback of [findPlugins], on the captured variables. *)
Lemma fst_findPlugins_callback (accept : Filter) (option : KPluginMetaDataOption)
    (pluginFile : string) (ids : gset string) (ret : list KPluginMetaData) :
  let metadata := fst (fromPluginFile W pluginFile option) in
  fst (findPlugins_callback W accept option pluginFile (ids, ret))
  = if isValid metadata && passes accept metadata
         && bool_decide (pluginId metadata ∉ ids)
    then ({[pluginId metadata]} ∪ ids, ret ++ [metadata])
    else (ids, ret).
Proof.
  intros metadata. unfold findPlugins_callback. rewrite fst_bind.
  fold metadata. destruct (isValid metadata); simpl; [|reflexivity].
  destruct (decide (pluginId metadata ∈ ids)) as [Hin|Hin].
  - rewrite (bool_decide_eq_true_2 _ Hin).
    rewrite bool_decide_eq_false_2 by (intros Hn; now apply Hn).
    now rewrite andb_false_r.
  - rewrite (bool_decide_eq_false_2 _ Hin), (bool_decide_eq_true_2 _ Hin).
    rewrite andb_true_r. now destruct (passes accept metadata).
Qed.

Lemma filter_all {A} (P : A → Prop) `{!∀ x, Decision (P x)} (l : list A) :
  (∀ x, P x) → filter P l = l.
Proof.
  intros HP. induction l as [|x l IH]; [reflexivity|].
  rewrite filter_cons_True by apply HP. now rewrite IH.
Qed.

Lemma firstOccurrences_ids (l : list KPluginMetaData) (m : KPluginMetaData) :
  m ∈ firstOccurrences l → m ∈ l.
Proof.
  induction l as [|md l IH]; simpl; [easy|].
  rewrite !elem_of_cons, list_elem_of_filter. intuition.
Qed.

Lemma firstOccurrences_NoDup (l : list KPluginMetaData) :
  NoDup (pluginId <$> firstOccurrences l).
Proof.
  induction l as [|md l IH]; [constructor|].
  cbn [firstOccurrences]. rewrite fmap_cons. apply NoDup_cons. split.
  - rewrite list_elem_of_fmap. intros (m & Hid & Hm).
    apply list_elem_of_filter in Hm as [Hne _]. now apply Hne.
  - eapply sublist_NoDup; [exact IH|].
    apply fmap_sublist, sublist_filter.
Qed.

(** The loop over the plugin files, started with [ids] already added:
    it appends the first occurrences among the valid, accepted candidates
    whose identifier is not in [ids]. *)
Lemma discovery_fold (accept : Filter) (option : KPluginMetaDataOption)
    (files : list string) (ids : gset string) (ret : list KPluginMetaData) :
  snd (fold_left
         (λ s pluginFile, fst (findPlugins_callback W accept option pluginFile s))
         files (ids, ret))
  = ret ++ filter (λ md, pluginId md ∉ ids)
             (firstOccurrences
                (filter (λ md, isValid md && passes accept md)
                   ((λ pluginFile, fst (fromPluginFile W pluginFile option))
                      <$> files))).
Proof.
  revert ids ret. induction files as [|file files IH]; intros ids ret.
  - simpl. now rewrite app_nil_r.
  - cbn [fold_left]. rewrite fst_findPlugins_callback.
    rewrite fmap_cons, filter_cons.
    set (metadata := fst (fromPluginFile W file option)).
    destruct (isValid metadata && passes accept metadata) eqn:Hgood.
    + rewrite decide_True by (now apply Is_true_true).
      cbn [firstOccurrences]. rewrite filter_cons. simpl andb.
      destruct (decide (pluginId metadata ∈ ids)) as [Hin|Hin].
      * rewrite bool_decide_eq_false_2 by (intros Hn; now apply Hn).
        rewrite decide_False by (intros Hn; now apply Hn).
        rewrite IH. f_equal. symmetry. apply list_filter_filter_l.
        intros m Hm Heq. apply Hm. now rewrite Heq.
      * rewrite (bool_decide_eq_true_2 _ Hin), (decide_True _ _ Hin).
        rewrite IH, <- app_assoc. simpl. do 2 f_equal.
        rewrite list_filter_filter. apply list_filter_iff.
        intros m. rewrite not_elem_of_union, not_elem_of_singleton.
        tauto.
    + rewrite decide_False by (now apply Is_true_false).
      simpl andb. cbv iota. apply IH.
Qed.

End Discovery.

(** C1, as the code has it: the result of [findPlugins] is the static
    entries followed by the first occurrence of every identifier among the
    valid plugins found on disk that pass the filter; no two of the entries
    that come from disk share an identifier.  Identifiers of static plugins
    are not recorded, so a static entry excludes nothing. *)
Theorem findPlugins_disk_entries_unique (W : World) (directory : string)
    (accept : Filter) (option : KPluginMetaDataOption) :
  let disk := firstOccurrences (diskCandidates W directory accept option) in
  fst (findPlugins W directory accept option)
  = staticEntries W directory accept option ++ disk
  ∧ NoDup (pluginId <$> disk).
Proof.
  intros disk. split; [|apply firstOccurrences_NoDup].
  unfold findPlugins. rewrite !fst_bind. cbn [pure fst].
  rewrite fst_forEachPlugin, discovery_fold.
  unfold staticEntries, disk, diskCandidates. f_equal.
  apply filter_all. intros md. apply not_elem_of_empty.
Qed.

(** C1 as it is worded fails: in the sample installation the static plugin
    and the plugin file both declare [foo], and [findPlugins] returns both. *)
Lemma findPlugins_duplicate_identifier_counterexample :
  ¬ (∀ W directory accept option,
       NoDup (pluginId <$> fst (findPlugins W directory accept option))).
Proof.
  intros H.
  specialize (H sampleWorld "/plugins" None DoNotAllowEmptyMetaData).
  replace (pluginId <$> fst (findPlugins sampleWorld "/plugins" None
                               DoNotAllowEmptyMetaData))
    with ["foo"; "foo"] in H by (vm_compute; reflexivity).
  apply NoDup_cons in H as [Hnotin _]. apply Hnotin. left.
Qed.

(* ===================================================================== *)
(** ** MIME types                                                         *)
(* ===================================================================== *)

Lemma contains_true (l : list string) (s : string) :
  contains l s = true ↔ s ∈ l.
Proof.
  unfold contains. rewrite existsb_exists, list_elem_of_In. split.
  - intros (x & Hin & Heq). apply String.eqb_eq in Heq. now subst.
  - intros Hin. exists s. split; [exact Hin | apply String.eqb_refl].
Qed.

Lemma contains_false (l : list string) (s : string) :
  contains l s = false ↔ s ∉ l.
Proof.
  rewrite <- contains_true. destruct (contains l s); split; congruence.
Qed.

(** C5: a MIME type that is literally among the declared [MimeTypes] is
    supported, whatever the MIME database says; a type that is not literally
    declared is supported exactly when the database knows it and it inherits
    from some declared type. *)
Theorem supportsMimeType_cases (W : World) (md : KPluginMetaData)
    (mimeType : string) :
  (mimeType ∈ mimeTypes W md →
     supportsMimeType W md mimeType = true
     ∧ ∀ valid inherits,
         supportsMimeType (withMimeDatabase W valid inherits) md mimeType = true)
  ∧ (mimeType ∉ mimeTypes W md →
     (supportsMimeType W md mimeType = true
      ↔ mimeTypeIsValid W mimeType = true
        ∧ ∃ declared, declared ∈ mimeTypes W md
                      ∧ mimeTypeInherits W mimeType declared = true)
     ∧ (mimeTypeIsValid W mimeType = false →
        supportsMimeType W md mimeType = false)).
Proof.
  split.
  - intros Hin. apply contains_true in Hin. split.
    + unfold supportsMimeType. now rewrite Hin.
    + intros valid inherits. unfold supportsMimeType.
      change (mimeTypes (withMimeDatabase W valid inherits) md)
        with (mimeTypes W md).
      now rewrite Hin.
  - intros Hnotin. apply contains_false in Hnotin.
    unfold supportsMimeType. rewrite Hnotin.
    destruct (mimeTypeIsValid W mimeType); simpl.
    + split; [|discriminate]. rewrite existsb_exists.
      setoid_rewrite list_elem_of_In. intuition.
    + split; [|reflexivity]. split; [discriminate | intros [? _]; discriminate].
Qed.

Lemma supportsMimeType_cases_witness :
  supportsMimeType sampleWorld textPlugin "text/plain" = true
  ∧ supportsMimeType sampleWorld textPlugin "text/x-csrc" = true
  ∧ supportsMimeType sampleWorld textPlugin "image/png" = false.
Proof.
  pose (md := textPlugin).
  assert (Hliteral : "text/plain" ∈ mimeTypes sampleWorld md)
    by (vm_compute; left).
  assert (Hsub : "text/x-csrc" ∉ mimeTypes sampleWorld md).
  { vm_compute. intros H. apply list_elem_of_In in H.
    destruct H as [H|[]]. discriminate H. }
  assert (Hpng : "image/png" ∉ mimeTypes sampleWorld md).
  { vm_compute. intros H. apply list_elem_of_In in H.
    destruct H as [H|[]]. discriminate H. }
  split; [|split].
  - exact (proj1 (proj1 (supportsMimeType_cases sampleWorld md "text/plain") Hliteral)).
  - apply (proj1 (proj2 (supportsMimeType_cases sampleWorld md "text/x-csrc") Hsub)).
    split; [reflexivity|]. exists "text/plain". split; [exact Hliteral | reflexivity].
  - apply (proj2 (proj2 (supportsMimeType_cases sampleWorld md "image/png") Hpng)).
    reflexivity.
Defined.

(* ===================================================================== *)
(** ** Loading a JSON file                                                *)
(* ===================================================================== *)

Lemma isValid_empty_metaData (md : KPluginMetaData) :
  m_metaData md = ∅ → m_option md = DoNotAllowEmptyMetaData →
  isValid md = false.
Proof.
  intros Hm Ho. unfold isValid. rewrite Hm, Ho.
  rewrite (proj2 (isEmpty_true ∅) eq_refl). simpl. apply andb_false_r.
Qed.

(** The plugin-file constructor logs at debug severity only. *)
Lemma fromPluginFile_log (W : World) (pluginFile : string)
    (option : KPluginMetaDataOption) :
  Forall (λ e, msgType e = QtDebugMsg) (snd (fromPluginFile W pluginFile option)).
Proof.
  unfold fromPluginFile.
  destruct (isEmpty (loader_metaData (getPluginLoaderForPath W pluginFile)));
    cbn -[isEmpty].
  - repeat constructor.
  - match goal with |- context [if ?c then _ else _] => destruct c end;
      repeat constructor.
Qed.

(** What [loadFromJsonFile] leaves when the file cannot be opened or its
    contents do not parse. *)
Lemma loadFromJsonFile_failure (W : World) (this : KPluginMetaData)
    (file : string) :
  (readFile W file = None
   ∨ ∃ bytes errorString,
       readFile W file = Some bytes
       ∧ parseJson W bytes = ParseError errorString) →
  (∃ entry, snd (loadFromJsonFile W this file) = [entry]
            ∧ msgType entry = QtWarningMsg)
  ∧ rawData (fst (loadFromJsonFile W this file)) = ∅
  ∧ isValid (fst (loadFromJsonFile W this file)) = false.
Proof.
  unfold loadFromJsonFile, QJsonDocument_fromJson.
  intros [Hopen | (bytes & e & Hread & Hparse)].
  - rewrite Hopen. simpl. split; [eauto|]. split; [reflexivity|].
    now apply isValid_empty_metaData.
  - rewrite Hread, Hparse. simpl. split; [eauto|]. split; [reflexivity|].
    now apply isValid_empty_metaData.
Qed.

(** C7: [fromJsonFile] returns an instance for every path.  When the file
    cannot be opened, or its contents do not parse, a warning is logged, the
    instance has empty raw metadata, and it is not valid.  The warning is
    the last entry of the log and the only warning in it: before it comes
    what the default construction of [result] logged, at debug severity. *)
Theorem fromJsonFile_degrades (W : World) (file : string) :
  ∃ md log,
    fromJsonFile W file = (md, log)
    ∧ ((readFile W file = None
        ∨ ∃ bytes errorString,
            readFile W file = Some bytes
            ∧ parseJson W bytes = ParseError errorString) →
       (∃ entry, log = snd (defaultConstructed W) ++ [entry]
                 ∧ msgType entry = QtWarningMsg)
       ∧ Forall (λ e, msgType e = QtDebugMsg) (snd (defaultConstructed W))
       ∧ rawData md = ∅
       ∧ isValid md = false).
Proof.
  exists (fst (fromJsonFile W file)), (snd (fromJsonFile W file)).
  split; [now destruct (fromJsonFile W file)|].
  intros Hfails. unfold fromJsonFile, bind. cbn [fst snd].
  destruct (loadFromJsonFile_failure W (fst (defaultConstructed W)) file Hfails)
    as ((entry & Hlog & Hwarning) & Hraw & Hvalid).
  split; [|split; [apply fromPluginFile_log | split; assumption]].
  exists entry. now rewrite Hlog.
Qed.

Lemma fromJsonFile_degrades_witness :
  (∃ md log, fromJsonFile sampleWorld "/etc/missing.json" = (md, log)
             ∧ (∃ entry, log = snd (defaultConstructed sampleWorld) ++ [entry]
                         ∧ msgType entry = QtWarningMsg)
             ∧ Forall (λ e, msgType e = QtDebugMsg)
                 (snd (defaultConstructed sampleWorld))
             ∧ rawData md = ∅ ∧ isValid md = false)
  ∧ (∃ md log, fromJsonFile sampleWorld "/etc/broken.json" = (md, log)
               ∧ (∃ entry, log = snd (defaultConstructed sampleWorld) ++ [entry]
                           ∧ msgType entry = QtWarningMsg)
               ∧ Forall (λ e, msgType e = QtDebugMsg)
                   (snd (defaultConstructed sampleWorld))
               ∧ rawData md = ∅ ∧ isValid md = false).
Proof.
  split.
  - destruct (fromJsonFile_degrades sampleWorld "/etc/missing.json")
      as (md & log & Heq & H).
    exists md, log. split; [exact Heq|]. apply H. left. reflexivity.
  - destruct (fromJsonFile_degrades sampleWorld "/etc/broken.json")
      as (md & log & Heq & H).
    exists md, log. split; [exact Heq|]. apply H. right.
    exists "{", "unterminated object". split; reflexivity.
Defined.

(* ===================================================================== *)
(** ** Authors, translators and other contributors                        *)
(* ===================================================================== *)

Section People.
Variable W : World.

Lemma addPersonFromJson_cases (obj : QJsonObject) (out : list KAboutPerson) :
  addPersonFromJson W obj out
  = if QString_isEmpty (name (KAboutPerson_fromJSON W obj))
    then (out, [invalidPersonWarning obj])
    else (out ++ [KAboutPerson_fromJSON W obj], []).
Proof.
  unfold addPersonFromJson.
  now destruct (QString_isEmpty (name (KAboutPerson_fromJSON W obj))).
Qed.

(** The loop over a JSON array, started with [ret] collected so far. *)
Lemma aboutPersonFromJSON_loop (a : list QJsonValue) (ret : list KAboutPerson) :
  forEach a (λ val ret,
      if isObject val then addPersonFromJson W (toObject val) ret
      else pure ret) ret
  = (ret ++ namedPersons W (JArray a),
     invalidPersonWarning <$> namelessObjects W (JArray a)).
Proof.
  unfold namedPersons, namelessObjects. revert ret.
  induction a as [|val a IH]; intros ret.
  - simpl. now rewrite app_nil_r.
  - cbn [forEach]. unfold bind. rewrite IH. clear IH.
    destruct val; cbn [isObject toObject personObjects omap list_omap pure fst snd];
      try (simpl; reflexivity).
    rewrite addPersonFromJson_cases.
    fold (omap (λ val, match val with JObject o => Some o | _ => None end) a).
    rewrite fmap_cons, !filter_cons.
    destruct (QString_isEmpty (name (KAboutPerson_fromJSON W o))) eqn:Hname.
    + apply QString_isEmpty_true in Hname.
      rewrite decide_False by (intros Hn; now apply Hn).
      rewrite (decide_True _ _ Hname). reflexivity.
    + apply QString_isEmpty_false in Hname.
      rewrite (decide_True _ _ Hname), (decide_False _ _ Hname).
      cbn [fst snd]. now rewrite <- app_assoc.
Qed.

Lemma aboutPersonFromJSON_cases (people : QJsonValue) :
  aboutPersonFromJSON W people
  = (namedPersons W people, invalidPersonWarning <$> namelessObjects W people).
Proof.
  unfold aboutPersonFromJSON.
  destruct people; cbn [isObject isArray toObject toArray]; try reflexivity.
  - apply (aboutPersonFromJSON_loop a []).
  - rewrite addPersonFromJson_cases.
    unfold namedPersons, namelessObjects. cbn [personObjects].
    rewrite fmap_cons, !filter_cons.
    destruct (QString_isEmpty (name (KAboutPerson_fromJSON W o))) eqn:Hname.
    + apply QString_isEmpty_true in Hname.
      rewrite decide_False by (intros Hn; now apply Hn).
      now rewrite (decide_True _ _ Hname).
    + apply QString_isEmpty_false in Hname.
      now rewrite (decide_True _ _ Hname), (decide_False _ _ Hname).
Qed.

End People.

(** C9: [authors()], [translators()] and [otherContributors()] read the
    value under their key in the ["KPlugin"] object.  A single JSON object
    is one person record and an array contributes its elements that are
    objects; any other value contributes nothing.  The list returned holds,
    in order, the records whose name is not empty, and every record left out
    is reported by one warning; nothing else is logged. *)
Theorem person_lists_cases (W : World) (md : KPluginMetaData) :
  let read key :=
    let people := value (rootObject md) key in
    (namedPersons W people, invalidPersonWarning <$> namelessObjects W people) in
  authors W md = read "Authors"
  ∧ translators W md = read "Translators"
  ∧ otherContributors W md = read "OtherContributors".
Proof.
  unfold authors, translators, otherContributors.
  repeat split; apply aboutPersonFromJSON_cases.
Qed.

(** What [personObjects] takes from each kind of JSON value. *)
Lemma personObjects_cases (people : QJsonValue) :
  (∀ o, people = JObject o → personObjects people = [o])
  ∧ (∀ a, people = JArray a →
       ∀ o, o ∈ personObjects people ↔ JObject o ∈ a)
  ∧ (isObject people = false → isArray people = false →
     personObjects people = []).
Proof.
  split; [|split].
  - now intros o ->.
  - intros a -> o. cbn [personObjects]. rewrite list_elem_of_omap. split.
    + intros (val & Hin & Hval). destruct val; try discriminate.
      now injection Hval as ->.
    + intros Hin. now exists (JObject o).
  - now destruct people.
Qed.

(* ===================================================================== *)
(** ** The typed [value] accessors                                        *)
(* ===================================================================== *)

(** C4, as the code has it: each of the four [value(key, default)]
    overloads looks [key] up in the top-level raw metadata object, and what
    it returns depends on the metadata through that lookup only; the
    ["KPlugin"] object is not where they read. *)
Theorem value_reads_raw_metadata (W : World) (key : string) :
  (∀ defaultValue,
     determinedBy (λ md, rawData md !! key)
       (λ md, fst (value_QString W md key defaultValue)))
  ∧ (∀ defaultValue,
     determinedBy (λ md, rawData md !! key)
       (λ md, value_bool md key defaultValue))
  ∧ (∀ defaultValue,
     determinedBy (λ md, rawData md !! key)
       (λ md, fst (value_int md key defaultValue)))
  ∧ (∀ defaultValue,
     determinedBy (λ md, rawData md !! key)
       (λ md, fst (value_QStringList W md key defaultValue))).
Proof.
  unfold determinedBy, rawData.
  repeat split; intros defaultValue md1 md2 Hlookup;
    unfold value_QString, value_bool, value_int, value_QStringList, value;
    rewrite Hlookup;
    destruct (m_metaData md2 !! key) as [[]|]; cbn -[QString_toInt];
    try reflexivity.
  - now destruct (QString_toInt s).
  - now destruct b.
  - now destruct (QString_number W d).
  - now destruct s.
Qed.

Lemma value_reads_raw_metadata_witness :
  fst (value_QString sampleWorld (nestedAndTopLevel JNull (JString "outer"))
         "X-Test" "default")
  = fst (value_QString sampleWorld
           (nestedAndTopLevel (JString "inner") (JString "outer"))
           "X-Test" "default").
Proof.
  apply (proj1 (value_reads_raw_metadata sampleWorld "X-Test") "default").
  reflexivity.
Defined.

(** C4 as it is worded fails for each overload: two metadata objects with
    the same ["KPlugin"] object, one of which also has the key at the top
    level, give different results; the value under the key inside
    ["KPlugin"] is never returned. *)
Lemma value_nested_key_counterexample :
  ¬ (∀ W key defaultValue,
       determinedBy rootObject (λ md, fst (value_QString W md key defaultValue)))
  ∧ ¬ (∀ key defaultValue,
         determinedBy rootObject (λ md, value_bool md key defaultValue))
  ∧ ¬ (∀ key defaultValue,
         determinedBy rootObject (λ md, fst (value_int md key defaultValue)))
  ∧ ¬ (∀ W key defaultValue,
         determinedBy rootObject
           (λ md, fst (value_QStringList W md key defaultValue))).
Proof.
  repeat split; intros H.
  - specialize (H sampleWorld "X-Test" "default"
                  (nestedOnly (JString "inner"))
                  (nestedAndTopLevel (JString "inner") (JString "outer"))
                  eq_refl).
    vm_compute in H. discriminate H.
  - specialize (H "X-Test" false
                  (nestedOnly (JBool true))
                  (nestedAndTopLevel (JBool true) (JBool true))
                  eq_refl).
    vm_compute in H. discriminate H.
  - specialize (H "X-Test" 5%Z
                  (nestedOnly (JDouble (inject_Z 7)))
                  (nestedAndTopLevel (JDouble (inject_Z 7)) (JDouble (inject_Z 7)))
                  eq_refl).
    vm_compute in H. discriminate H.
  - specialize (H sampleWorld "X-Test" []
                  (nestedOnly (JArray [JString "a"]))
                  (nestedAndTopLevel (JArray [JString "a"]) (JArray [JString "a"]))
                  eq_refl).
    vm_compute in H. discriminate H.
Qed.

(** A double denotes the whole number [n] exactly when it equals [n]. *)
Lemma wholeNumber_inject_Z (d : Q) (n : Z) :
  wholeNumber d = Some n ↔ (d == inject_Z n)%Q.
Proof.
  unfold wholeNumber. split.
  - destruct (Pos.eqb_spec (Qden (Qred d)) 1) as [Hden|]; [|discriminate].
    intros [= Hnum]. rewrite <- (Qred_correct d).
    destruct (Qred d) as [num den]. simpl in *. now subst.
  - intros Heq. rewrite (Qred_complete _ _ Heq).
    rewrite Qred_identity by apply Z.gcd_1_r. reflexivity.
Qed.

Lemma fitsInt_true (n : Z) : fitsInt n = true ↔ (INT_MIN ≤ n ≤ INT_MAX)%Z.
Proof. unfold fitsInt. rewrite andb_true_iff, !Z.leb_le. reflexivity. Qed.

(** C6, as the code has it: the integer [value(key, default)] returns the
    default when the key is absent; for a JSON number it returns the number
    when that is a whole number within the range of [int], and 0 for any
    other number; for a string it returns what [QString::toInt] parses, and
    the default, with a warning, when the string does not parse. *)
Theorem value_int_cases (md : KPluginMetaData) (key : string)
    (defaultValue : Z) :
  let result := value_int md key defaultValue in
  match rawData md !! key with
  | None => result = (defaultValue, [])
  | Some (JDouble d) =>
      (∀ n, (d == inject_Z n)%Q → (INT_MIN ≤ n ≤ INT_MAX)%Z → fst result = n)
      ∧ ((∀ n, (d == inject_Z n)%Q → ¬ (INT_MIN ≤ n ≤ INT_MAX)%Z) →
         fst result = 0%Z)
  | Some (JString s) =>
      (∀ n, QString_toInt s = Some n → fst result = n)
      ∧ (QString_toInt s = None →
         fst result = defaultValue
         ∧ ∃ entry, snd result = [entry] ∧ msgType entry = QtWarningMsg)
  | Some _ => fst result = defaultValue
  end.
Proof.
  unfold value_int, value, rawData.
  destruct (m_metaData md !! key) as [[| b | d | s | a | o |]|];
    cbn -[QString_toInt toInt]; try reflexivity.
  - unfold toInt, toInt_or. split.
    + intros n Heq Hrange. apply wholeNumber_inject_Z in Heq.
      apply fitsInt_true in Hrange. now rewrite Heq, Hrange.
    + intros Hnone. destruct (wholeNumber d) as [n|] eqn:Hwhole; [|reflexivity].
      destruct (fitsInt n) eqn:Hfits; [|reflexivity].
      exfalso. apply (Hnone n).
      * now apply wholeNumber_inject_Z.
      * now apply fitsInt_true.
  - split.
    + now intros n ->.
    + intros ->. cbn. eauto.
Qed.

Lemma value_int_cases_witness :
  fst (value_int countedPlugin "X-Missing" 5) = 5%Z
  ∧ fst (value_int countedPlugin "X-Size" 5) = 7%Z
  ∧ fst (value_int countedPlugin "X-Count" 5) = 42%Z
  ∧ fst (value_int countedPlugin "X-Broken" 5) = 5%Z.
Proof.
  pose proof (value_int_cases countedPlugin "X-Missing" 5) as Hmissing.
  pose proof (value_int_cases countedPlugin "X-Size" 5) as Hsize.
  pose proof (value_int_cases countedPlugin "X-Count" 5) as Hcount.
  pose proof (value_int_cases countedPlugin "X-Broken" 5) as Hbroken.
  change (rawData countedPlugin !! "X-Missing") with (@None QJsonValue) in Hmissing.
  change (rawData countedPlugin !! "X-Size") with (Some (JDouble (inject_Z 7))) in Hsize.
  change (rawData countedPlugin !! "X-Count") with (Some (JString "42")) in Hcount.
  change (rawData countedPlugin !! "X-Broken") with (Some (JString "4x2")) in Hbroken.
  cbv zeta iota in Hmissing, Hsize, Hcount, Hbroken.
  split; [|split; [|split]].
  - now rewrite Hmissing.
  - apply (proj1 Hsize 7%Z); [reflexivity | vm_compute; split; discriminate].
  - apply (proj1 Hcount 42%Z). reflexivity.
  - apply (proj2 Hbroken). reflexivity.
Defined.

(** C6 as it is worded fails at JSON numbers that are not whole numbers an
    [int] can hold: under the number 0.5, asked with the default 5, the
    accessor returns 0, which is neither the number nor the default. *)
Lemma value_int_number_counterexample :
  ¬ (∀ md key defaultValue d,
       rawData md !! key = Some (JDouble d) →
       (inject_Z (fst (value_int md key defaultValue)) == d)%Q
       ∨ fst (value_int md key defaultValue) = defaultValue).
Proof.
  intros H.
  destruct (H countedPlugin "X-Ratio" 5%Z (1 # 2)%Q eq_refl) as [Heq | Heq];
    vm_compute in Heq; discriminate Heq.
Qed.

(** The same happens at a whole number beyond the range of [int]. *)
Example value_int_out_of_range :
  fst (value_int countedPlugin "X-Huge" 5) = 0%Z.
Proof. reflexivity. Qed.

(* ===================================================================== *)
(** ** More on discovery                                                  *)
(* ===================================================================== *)

Section DiscoveryResults.
Variable W : World.

Lemma fold_left_snoc {A} (l visited : list A) :
  fold_left (λ visited x, visited ++ [x]) l visited = visited ++ l.
Proof.
  revert visited. induction l as [|x l IH]; intros visited.
  - simpl. now rewrite app_nil_r.
  - cbn [fold_left]. rewrite IH, <- app_assoc. reflexivity.
Qed.

Lemma visitedFiles_pluginFiles (directory : string) :
  visitedFiles W directory = pluginFiles W directory.
Proof.
  unfold visitedFiles. rewrite fst_forEachPlugin. cbn [pure fst].
  apply fold_left_snoc.
Qed.

Lemma findPlugins_static_cases (accept : Filter) (option : KPluginMetaDataOption)
    (p : QStaticPlugin) (ret : list KPluginMetaData) :
  fst (findPlugins_static W accept option p ret)
  = if isValid (staticMetaData W p option)
         && passes accept (staticMetaData W p option)
    then ret ++ [staticMetaData W p option] else ret.
Proof.
  unfold findPlugins_static. rewrite fst_bind.
  unfold staticMetaData, loadStaticPlugin, pure.
  cbv beta iota zeta. cbn [fst].
  match goal with |- context [isValid ?m] => destruct (isValid m) end;
    [|reflexivity].
  simpl. match goal with |- context [passes accept ?m] =>
           now destruct (passes accept m) end.
Qed.

(** The loop over the static plugins keeps, in order, those whose metadata
    is valid and accepted. *)
Lemma staticEntries_filter (directory : string) (accept : Filter)
    (option : KPluginMetaDataOption) :
  staticEntries W directory accept option
  = filter (λ md, isValid md && passes accept md)
      ((λ p, staticMetaData W p option) <$> staticPlugins W directory).
Proof.
  unfold staticEntries. rewrite fst_forEach.
  rewrite <- (app_nil_l (filter _ _)).
  generalize (@nil KPluginMetaData) as ret.
  induction (staticPlugins W directory) as [|p ps IH]; intros ret.
  - simpl. now rewrite app_nil_r.
  - cbn [fold_left]. rewrite IH, findPlugins_static_cases.
    rewrite fmap_cons, filter_cons.
    destruct (isValid (staticMetaData W p option)
              && passes accept (staticMetaData W p option)) eqn:Hgood.
    + rewrite decide_True by (now apply Is_true_true).
      now rewrite <- app_assoc.
    + rewrite decide_False by (now apply Is_true_false). reflexivity.
Qed.

(** The list [findPlugins] returns, static entries first. *)
Lemma findPlugins_value (directory : string) (accept : Filter)
    (option : KPluginMetaDataOption) :
  fst (findPlugins W directory accept option)
  = staticEntries W directory accept option
    ++ firstOccurrences (diskCandidates W directory accept option).
Proof.
  unfold findPlugins. rewrite !fst_bind. cbn [pure fst].
  rewrite fst_forEachPlugin, discovery_fold.
  unfold staticEntries, diskCandidates. f_equal.
  apply filter_all. intros md. apply not_elem_of_empty.
Qed.

Lemma firstOccurrences_same_ids (l : list KPluginMetaData) (id : string) :
  id ∈ pluginId <$> firstOccurrences l ↔ id ∈ pluginId <$> l.
Proof.
  induction l as [|md l IH]; [reflexivity|].
  cbn [firstOccurrences]. rewrite !fmap_cons, !elem_of_cons, <- IH.
  rewrite !list_elem_of_fmap. split.
  - intros [-> | (m & -> & Hm)]; [now left|].
    apply list_elem_of_filter in Hm as [_ Hm]. right. now exists m.
  - intros [-> | (m & -> & Hm)]; [now left|].
    destruct (decide (pluginId m = pluginId md)) as [Heq|Hne]; [now left|].
    right. exists m. split; [reflexivity|]. now apply list_elem_of_filter.
Qed.

Lemma diskCandidates_elem (directory : string) (accept : Filter)
    (option : KPluginMetaDataOption) (md : KPluginMetaData) :
  md ∈ diskCandidates W directory accept option
  ↔ isValid md = true ∧ passes accept md = true
    ∧ ∃ pluginFile, pluginFile ∈ pluginFiles W directory
                    ∧ md = fst (fromPluginFile W pluginFile option).
Proof.
  unfold diskCandidates.
  rewrite list_elem_of_filter, list_elem_of_fmap, Is_true_true, andb_true_iff.
  split.
  - intros ((Hv & Hp) & f & -> & Hf). eauto.
  - intros (Hv & Hp & f & Hf & ->). eauto.
Qed.

Lemma fromPluginFile_fields (pluginFile : string) (option : KPluginMetaDataOption) :
  let md := fst (fromPluginFile W pluginFile option) in
  m_requestedFileName md = pluginFile
  ∧ m_option md = option
  ∧ staticPlugin md = None.
Proof.
  unfold fromPluginFile.
  destruct (isEmpty (loader_metaData (getPluginLoaderForPath W pluginFile)));
    simpl; auto.
Qed.

Lemma staticMetaData_fields (p : QStaticPlugin) (option : KPluginMetaDataOption) :
  m_requestedFileName (staticMetaData W p option) = ""
  ∧ m_option (staticMetaData W p option) = option
  ∧ staticPlugin (staticMetaData W p option) = Some p.
Proof.
  unfold staticMetaData, loadStaticPlugin. cbn [m_requestedFileName m_option staticPlugin].
  repeat split. apply (fromPluginFile_fields "" DoNotAllowEmptyMetaData).
Qed.

End DiscoveryResults.

(** X1: every entry [findPlugins] returns, static or from disk, is valid
    and passes the filter. *)
Theorem findPlugins_entries_valid_and_accepted (W : World) (directory : string)
    (accept : Filter) (option : KPluginMetaDataOption) :
  Forall (λ md, isValid md = true ∧ passes accept md = true)
    (fst (findPlugins W directory accept option)).
Proof.
  rewrite findPlugins_value, staticEntries_filter. apply Forall_app. split.
  - apply Forall_forall. intros md Hmd.
    apply list_elem_of_filter in Hmd as [Hgood _].
    apply Is_true_true in Hgood. now apply andb_true_iff.
  - apply Forall_forall. intros md Hmd.
    apply firstOccurrences_ids, diskCandidates_elem in Hmd. tauto.
Qed.

(** X2: the result of [findPlugins] splits into the static entries, each
    marked as a static plugin and requested from no file, followed by the
    entries from disk, none marked static and each requested from a file
    that [forEachPlugin] visited; every entry carries the option passed. *)
Theorem findPlugins_static_then_disk (W : World) (directory : string)
    (accept : Filter) (option : KPluginMetaDataOption) :
  let statics := staticEntries W directory accept option in
  let disk := firstOccurrences (diskCandidates W directory accept option) in
  fst (findPlugins W directory accept option) = statics ++ disk
  ∧ Forall (λ md, isStaticPlugin md = true ∧ requestedFileName md = "") statics
  ∧ Forall (λ md, isStaticPlugin md = false
                  ∧ requestedFileName md ∈ visitedFiles W directory) disk
  ∧ Forall (λ md, m_option md = option) (statics ++ disk).
Proof.
  intros statics disk. rewrite visitedFiles_pluginFiles.
  split; [apply findPlugins_value|].
  assert (Hs : ∀ md, md ∈ statics → ∃ p, md = staticMetaData W p option).
  { intros md Hmd. unfold statics in Hmd. rewrite staticEntries_filter in Hmd.
    apply list_elem_of_filter in Hmd as [_ Hmd].
    apply list_elem_of_fmap in Hmd as (p & -> & _). now exists p. }
  assert (Hd : ∀ md, md ∈ disk →
                 ∃ f, f ∈ pluginFiles W directory
                      ∧ md = fst (fromPluginFile W f option)).
  { intros md Hmd. apply firstOccurrences_ids, diskCandidates_elem in Hmd.
    tauto. }
  split; [|split].
  - apply Forall_forall. intros md Hmd. destruct (Hs md Hmd) as (p & ->).
    split; [reflexivity|]. apply (staticMetaData_fields W p option).
  - apply Forall_forall. intros md Hmd. destruct (Hd md Hmd) as (f & Hf & ->).
    destruct (fromPluginFile_fields W f option) as (Hreq & _ & Hstatic).
    unfold isStaticPlugin, requestedFileName. rewrite Hstatic, Hreq. auto.
  - apply Forall_app. split; apply Forall_forall; intros md Hmd.
    + destruct (Hs md Hmd) as (p & ->). reflexivity.
    + destruct (Hd md Hmd) as (f & _ & ->).
      apply (fromPluginFile_fields W f option).
Qed.

(** X3: deduplication loses no identifier: a visited plugin file whose
    metadata is valid and passes the filter has its identifier among the
    entries returned. *)
Theorem findPlugins_no_identifier_lost (W : World) (directory : string)
    (accept : Filter) (option : KPluginMetaDataOption) (pluginFile : string) :
  pluginFile ∈ visitedFiles W directory →
  isValid (fst (fromPluginFile W pluginFile option)) = true →
  passes accept (fst (fromPluginFile W pluginFile option)) = true →
  pluginId (fst (fromPluginFile W pluginFile option))
    ∈ pluginId <$> fst (findPlugins W directory accept option).
Proof.
  rewrite visitedFiles_pluginFiles. intros Hfile Hvalid Hpass. rewrite findPlugins_value, fmap_app.
  apply elem_of_app. right. apply firstOccurrences_same_ids.
  apply list_elem_of_fmap_2. apply diskCandidates_elem. eauto.
Qed.

Lemma findPlugins_no_identifier_lost_witness :
  pluginId (fst (fromPluginFile diskOnlyWorld "/plugins/bar.so"
                   DoNotAllowEmptyMetaData))
    ∈ pluginId <$> fst (findPlugins diskOnlyWorld "/plugins" None
                          DoNotAllowEmptyMetaData).
Proof.
  apply findPlugins_no_identifier_lost.
  - vm_compute. right. left.
  - reflexivity.
  - reflexivity.
Defined.

(** X4: a filter can only take identifiers away: the identifiers found with
    a filter are among those found without one. *)
Theorem findPlugins_filter_identifiers_subset (W : World) (directory : string)
    (accept : Filter) (option : KPluginMetaDataOption) (id : string) :
  id ∈ pluginId <$> fst (findPlugins W directory accept option) →
  id ∈ pluginId <$> fst (findPlugins W directory None option).
Proof.
  rewrite !findPlugins_value, !fmap_app, !elem_of_app.
  rewrite !firstOccurrences_same_ids, !staticEntries_filter.
  rewrite !list_elem_of_fmap.
  intros [(md & -> & Hmd) | (md & -> & Hmd)]; [left | right]; exists md;
    (split; [reflexivity|]).
  - apply list_elem_of_filter in Hmd as [Hgood Hmd].
    apply list_elem_of_filter. split; [|exact Hmd].
    apply Is_true_true in Hgood. apply andb_true_iff in Hgood as [Hv _].
    apply Is_true_true. now rewrite Hv.
  - apply diskCandidates_elem in Hmd as (Hv & _ & Hfile).
    apply diskCandidates_elem. auto.
Qed.

Lemma findPlugins_filter_identifiers_subset_witness :
  "foo" ∈ pluginId <$> fst (findPlugins sampleWorld "/plugins" None
                              DoNotAllowEmptyMetaData).
Proof.
  apply (findPlugins_filter_identifiers_subset sampleWorld "/plugins"
           (Some isStaticPlugin)).
  vm_compute. left.
Defined.

(** X5: when no static plugin is registered for the directory, no two
    entries of the result share an identifier. *)
Theorem findPlugins_unique_without_static (W : World) (directory : string)
    (accept : Filter) (option : KPluginMetaDataOption) :
  staticPlugins W directory = [] →
  NoDup (pluginId <$> fst (findPlugins W directory accept option)).
Proof.
  intros Hnone. rewrite findPlugins_value. unfold staticEntries.
  rewrite Hnone. simpl. apply firstOccurrences_NoDup.
Qed.

Lemma findPlugins_unique_without_static_witness :
  NoDup (pluginId <$> fst (findPlugins diskOnlyWorld "/plugins" None
                             DoNotAllowEmptyMetaData)).
Proof.
  apply findPlugins_unique_without_static. reflexivity.
Defined.

Section DiscoveryLog.
Variable W : World.

Lemma snd_forEach_Forall {A S} (P : LogEntry → Prop)
    (body : A → S → Logged S) (l : list A) (s : S) :
  (∀ x s, Forall P (snd (body x s))) →
  Forall P (snd (forEach l body s)).
Proof.
  intros Hbody. revert s. induction l as [|x l IH]; intros s.
  - constructor.
  - cbn [forEach]. unfold bind. cbn [snd]. apply Forall_app. split.
    + apply Hbody.
    + apply IH.
Qed.

Lemma findPlugins_callback_log (accept : Filter) (option : KPluginMetaDataOption)
    (pluginFile : string) (captured : gset string * list KPluginMetaData) :
  Forall (λ e, msgType e = QtDebugMsg)
    (snd (findPlugins_callback W accept option pluginFile captured)).
Proof.
  unfold findPlugins_callback. destruct captured as [ids ret].
  unfold bind. cbn [snd]. apply Forall_app. split;
    [apply fromPluginFile_log|].
  destruct (isValid _); cbn -[bool_decide].
  - destruct (bool_decide _); [constructor|].
    destruct (passes accept _); constructor.
  - repeat constructor.
Qed.

(** One round of the loop over the static plugins logs what the default
    construction of [metaData] logs. *)
Lemma findPlugins_static_log (accept : Filter) (option : KPluginMetaDataOption)
    (p : QStaticPlugin) (ret : list KPluginMetaData) :
  snd (findPlugins_static W accept option p ret) = snd (defaultConstructed W).
Proof.
  unfold findPlugins_static, bind, loadStaticPlugin, pure.
  cbv beta iota zeta. cbn [snd]. apply app_nil_r.
Qed.

End DiscoveryLog.

(** X6: discovery is quiet: whatever the directory holds, [findPlugins]
    logs at debug severity only, never a warning; that covers the default
    constructions in the loop over the static plugins, the announcement of
    the directories, and every plugin file looked at. *)
Theorem findPlugins_logs_debug_only (W : World) (directory : string)
    (accept : Filter) (option : KPluginMetaDataOption) :
  Forall (λ e, msgType e = QtDebugMsg)
    (snd (findPlugins W directory accept option)).
Proof.
  unfold findPlugins, bind. cbn [snd pure]. rewrite app_nil_r.
  apply Forall_app. split.
  { apply snd_forEach_Forall. intros p ret.
    rewrite findPlugins_static_log. apply fromPluginFile_log. }
  unfold forEachPlugin, bind. cbn [snd fst qCDebug].
  apply Forall_cons. split; [reflexivity|].
  apply snd_forEach_Forall. intros dir s.
  apply snd_forEach_Forall. intros it s'.
  destruct (forEachPlugin_accepts W directory (fst it)).
  - apply findPlugins_callback_log.
  - constructor.
Qed.

(** X7: [forEachPlugin] hands its callback library files only: every path
    visited belongs to a file of one of the directories checked whose name
    [QLibrary::isLibrary] accepts. *)
Theorem pluginFiles_are_libraries (W : World) (directory pluginFile : string) :
  pluginFile ∈ visitedFiles W directory →
  ∃ dir fileName,
    dir ∈ forEachPlugin_dirsToCheck W directory
    ∧ (fileName, pluginFile) ∈ dirFiles W dir
    ∧ isLibrary W fileName = true.
Proof.
  rewrite visitedFiles_pluginFiles.
  unfold pluginFiles. rewrite list_elem_of_In, in_flat_map.
  intros (dir & Hdir & Hin).
  apply list_elem_of_In, list_elem_of_fmap in Hin as ([name path] & -> & Hit).
  apply list_elem_of_filter in Hit as [Hacc Hit].
  exists dir, name. split; [now apply list_elem_of_In|]. split; [exact Hit|].
  apply Is_true_true in Hacc. unfold forEachPlugin_accepts in Hacc.
  simpl in Hacc. destruct (Q_OS_ANDROID W); [|exact Hacc].
  now apply andb_true_iff in Hacc.
Qed.

Lemma pluginFiles_are_libraries_witness :
  ∃ dir fileName,
    dir ∈ forEachPlugin_dirsToCheck sampleWorld "/plugins"
    ∧ (fileName, "/plugins/foo.so") ∈ dirFiles sampleWorld dir
    ∧ isLibrary sampleWorld fileName = true.
Proof.
  apply pluginFiles_are_libraries. vm_compute. left.
Defined.

(* ===================================================================== *)
(** ** Looking a plugin up by identifier                                  *)
(* ===================================================================== *)

Section LookupResults.
Variable W : World.

Lemma findPluginById_loader_Some (directory pluginId_ : string)
    (md : KPluginMetaData) :
  findPluginById_loader W directory pluginId_ = Some md →
  isValid md = true ∧ pluginId md = pluginId_ ∧ staticPlugin md = None.
Proof.
  unfold findPluginById_loader.
  destruct (loader_load _); [|discriminate].
  match goal with |- context [isValid ?m && String.eqb (pluginId ?m) _] =>
    destruct (isValid m && String.eqb (pluginId m) pluginId_) eqn:Hfound
  end; [|discriminate].
  intros [= <-]. apply andb_true_iff in Hfound as [Hv Hid].
  apply String.eqb_eq in Hid. auto.
Qed.

Lemma findPluginById_static_cons (p : QStaticPlugin) (ps : list QStaticPlugin)
    (pluginId_ : string) :
  fst (findPluginById_static W (p :: ps) pluginId_)
  = if isValid (staticMetaData W p DoNotAllowEmptyMetaData)
         && String.eqb (pluginId (staticMetaData W p DoNotAllowEmptyMetaData))
              pluginId_
    then Some (staticMetaData W p DoNotAllowEmptyMetaData)
    else fst (findPluginById_static W ps pluginId_).
Proof.
  cbn [findPluginById_static]. rewrite fst_bind.
  unfold staticMetaData, loadStaticPlugin. cbv beta iota zeta.
  match goal with |- context [isValid ?m && String.eqb (pluginId ?m) _] =>
    destruct (isValid m && String.eqb (pluginId m) pluginId_)
  end; reflexivity.
Qed.

Lemma findPluginById_static_Some (ps : list QStaticPlugin) (pluginId_ : string)
    (md : KPluginMetaData) :
  fst (findPluginById_static W ps pluginId_) = Some md →
  isValid md = true ∧ pluginId md = pluginId_
  ∧ ∃ p, p ∈ ps ∧ md = staticMetaData W p DoNotAllowEmptyMetaData.
Proof.
  induction ps as [|p ps IH]; [discriminate|].
  rewrite findPluginById_static_cons.
  destruct (isValid (staticMetaData W p DoNotAllowEmptyMetaData)
            && String.eqb (pluginId (staticMetaData W p DoNotAllowEmptyMetaData))
                 pluginId_) eqn:Hfound.
  - intros [= <-]. apply andb_true_iff in Hfound as [Hv Hid].
    apply String.eqb_eq in Hid. split; [exact Hv|]. split; [exact Hid|].
    exists p. split; [left | reflexivity].
  - intros Hrest. destruct (IH Hrest) as (Hv & Hid & q & Hq & ->).
    split; [exact Hv|]. split; [exact Hid|]. exists q. split; [now right | reflexivity].
Qed.

(** Where the result of [findPluginById] comes from. *)
Lemma findPluginById_cases (directory pluginId_ : string) :
  let r := fst (findPluginById W directory pluginId_) in
  (isValid r = true ∧ pluginId r = pluginId_
   ∧ (staticPlugin r = None
      ∨ ∃ p, p ∈ staticPlugins W directory
             ∧ r = staticMetaData W p DoNotAllowEmptyMetaData))
  ∨ (r = fst (defaultConstructed W)
     ∧ findPluginById_loader W directory pluginId_ = None
     ∧ fst (findPluginById_static W (staticPlugins W directory) pluginId_)
       = None).
Proof.
  unfold findPluginById.
  destruct (findPluginById_loader W directory pluginId_) as [md|] eqn:Hloader.
  - left. apply findPluginById_loader_Some in Hloader. tauto.
  - rewrite fst_bind.
    destruct (fst (findPluginById_static W (staticPlugins W directory)
                     pluginId_)) as [md|] eqn:Hstatic.
    + left. apply findPluginById_static_Some in Hstatic. tauto.
    + right. auto.
Qed.

End LookupResults.

(** X8: what [findPluginById] returns is either a valid instance whose
    identifier is the one asked for, or the object of the default
    construction in its last statement.  So, where the default construction
    gives an invalid object (the plugin loader finds no metadata for the
    empty path), a valid result always has the identifier asked for. *)
Theorem findPluginById_found_or_default (W : World) (directory pluginId_ : string) :
  let r := fst (findPluginById W directory pluginId_) in
  ((isValid r = true ∧ pluginId r = pluginId_)
   ∨ r = fst (defaultConstructed W))
  ∧ (isValid (fst (defaultConstructed W)) = false →
     isValid r = true → pluginId r = pluginId_).
Proof.
  intros r.
  destruct (findPluginById_cases W directory pluginId_) as [H | (H & _)];
    fold r in H.
  - split; [left|]; tauto.
  - split; [now right|]. rewrite H. intros Hd Hv. rewrite Hd in Hv.
    discriminate Hv.
Qed.

Lemma findPluginById_found_or_default_witness :
  pluginId (fst (findPluginById sampleWorld "/plugins" "foo")) = "foo".
Proof.
  apply (proj2 (findPluginById_found_or_default sampleWorld "/plugins" "foo"));
    reflexivity.
Defined.

(** X9: the empty identifier matches nothing: asked for it,
    [findPluginById] takes neither the loaded module nor any static plugin
    and returns the object of the default construction in its last
    statement. *)
Theorem findPluginById_empty_identifier (W : World) (directory : string) :
  fst (findPluginById W directory "") = fst (defaultConstructed W)
  ∧ findPluginById_loader W directory "" = None
  ∧ fst (findPluginById_static W (staticPlugins W directory) "") = None.
Proof.
  destruct (findPluginById_cases W directory "") as [(Hv & Hid & _) | H];
    [|exact H].
  unfold isValid in Hv. rewrite Hid in Hv. discriminate Hv.
Qed.

(** X10: when [findPluginById] answers with a static plugin, that very
    entry is among those [findPlugins] lists for the directory without a
    filter. *)
Theorem findPluginById_static_in_findPlugins (W : World)
    (directory pluginId_ : string) :
  isStaticPlugin (fst (findPluginById W directory pluginId_)) = true →
  fst (findPluginById W directory pluginId_)
    ∈ fst (findPlugins W directory None DoNotAllowEmptyMetaData).
Proof.
  intros Hstatic.
  destruct (findPluginById_cases W directory pluginId_)
    as [(Hv & _ & [Hnone | (p & Hp & Hr)]) | (Hdefault & _)].
  - unfold isStaticPlugin in Hstatic. rewrite Hnone in Hstatic. discriminate.
  - rewrite findPlugins_value, staticEntries_filter. apply elem_of_app. left.
    apply list_elem_of_filter. split.
    + apply Is_true_true. rewrite Hv. reflexivity.
    + rewrite Hr.
      now apply (list_elem_of_fmap_2
                   (λ q, staticMetaData W q DoNotAllowEmptyMetaData)).
  - rewrite Hdefault in Hstatic. unfold isStaticPlugin in Hstatic.
    destruct (fromPluginFile_fields W "" DoNotAllowEmptyMetaData)
      as (_ & _ & Hnone).
    unfold defaultConstructed in Hstatic. rewrite Hnone in Hstatic.
    discriminate Hstatic.
Qed.

Lemma findPluginById_static_in_findPlugins_witness :
  fst (findPluginById sampleWorld "/plugins" "foo")
    ∈ fst (findPlugins sampleWorld "/plugins" None DoNotAllowEmptyMetaData).
Proof.
  apply findPluginById_static_in_findPlugins. reflexivity.
Defined.

(* ===================================================================== *)
(** ** The directories searched                                           *)
(* ===================================================================== *)

Lemma length_append (s1 s2 : string) :
  String.length (s1 +:+ s2) = String.length s1 + String.length s2.
Proof. induction s1 as [|a s1 IH]; simpl; [reflexivity | now rewrite IH]. Qed.

Lemma append_cancel_r (s1 s2 t : string) : s1 +:+ t = s2 +:+ t → s1 = s2.
Proof.
  revert s2. induction s1 as [|a s1 IH]; intros [|b s2] Heq.
  - reflexivity.
  - apply (f_equal String.length) in Heq.
    rewrite !length_append in Heq. simpl in Heq. lia.
  - apply (f_equal String.length) in Heq.
    rewrite !length_append in Heq. simpl in Heq. lia.
  - change (String a (s1 +:+ t) = String b (s2 +:+ t)) in Heq.
    injection Heq as -> Heq. f_equal. now apply IH.
Qed.

Lemma prefix_append (s1 s2 s : string) :
  String.prefix (s1 +:+ s2) s = true → String.prefix s1 s = true.
Proof.
  revert s. induction s1 as [|a s1 IH]; intros s Hpre.
  - now destruct s.
  - destruct s as [|b s]; [discriminate|]. simpl in *.
    destruct (ascii_dec a b); [now apply IH | discriminate].
Qed.

(** X11: for a relative directory (not on Android) the application's own
    directory is searched first and only once, and the directory is looked
    for under every library path. *)
Theorem dirsToCheck_application_dir_first (W : World) (directory : string) :
  Q_OS_ANDROID W = false →
  isAbsolutePath W directory = false →
  ∃ rest,
    forEachPlugin_dirsToCheck W directory
    = (applicationDirPath W +:+ "/" +:+ directory) :: rest
    ∧ ((applicationDirPath W +:+ "/" +:+ directory) ∉ rest)
    ∧ (∀ libDir, libDir ∈ libraryPaths W →
         (libDir +:+ "/" +:+ directory) ∈ forEachPlugin_dirsToCheck W directory).
Proof.
  intros Handroid Hrelative. unfold forEachPlugin_dirsToCheck.
  rewrite Handroid, Hrelative. rewrite fmap_cons. eexists. split; [reflexivity|].
  split.
  - rewrite list_elem_of_fmap. intros (libDir & Heq & Hin).
    apply list_elem_of_filter in Hin as [Hne _]. apply Hne.
    symmetry. eapply append_cancel_r. exact Heq.
  - intros libDir Hin.
    destruct (decide (libDir = applicationDirPath W)) as [-> | Hne];
      [left|right].
    apply list_elem_of_fmap. exists libDir. split; [reflexivity|].
    now apply list_elem_of_filter.
Qed.

Lemma dirsToCheck_application_dir_first_witness :
  ∃ rest,
    forEachPlugin_dirsToCheck sampleWorld "kf5/parts"
    = "/usr/bin/kf5/parts" :: rest
    ∧ ("/usr/bin/kf5/parts" ∉ rest)
    ∧ (∀ libDir, libDir ∈ libraryPaths sampleWorld →
         (libDir +:+ "/" +:+ "kf5/parts")
           ∈ forEachPlugin_dirsToCheck sampleWorld "kf5/parts").
Proof.
  apply (dirsToCheck_application_dir_first sampleWorld "kf5/parts");
    reflexivity.
Defined.

(** X12: on Android the directory does not choose where to look but which
    files to take: every file visited lies in one of the library paths and
    its name starts with [libplugins_] followed by the directory, slashes
    turned into underscores. *)
Theorem pluginFiles_android_prefix (W : World) (directory pluginFile : string) :
  Q_OS_ANDROID W = true →
  pluginFile ∈ visitedFiles W directory →
  ∃ dir fileName,
    dir ∈ libraryPaths W
    ∧ (fileName, pluginFile) ∈ dirFiles W dir
    ∧ startsWith fileName ("libplugins_" +:+ replace "/" "_" directory) = true.
Proof.
  intros Handroid. rewrite visitedFiles_pluginFiles.
  unfold pluginFiles, forEachPlugin_dirsToCheck.
  rewrite Handroid, list_elem_of_In, in_flat_map.
  intros (dir & Hdir & Hin).
  apply list_elem_of_In, list_elem_of_fmap in Hin as ([name path] & -> & Hit).
  apply list_elem_of_filter in Hit as [Hacc Hit].
  exists dir, name. split; [now apply list_elem_of_In|]. split; [exact Hit|].
  apply Is_true_true in Hacc. unfold forEachPlugin_accepts in Hacc.
  rewrite Handroid in Hacc. simpl in Hacc.
  apply andb_true_iff in Hacc as [Hprefix _]. unfold startsWith in *.
  destruct (endsWith ("libplugins_" +:+ replace "/" "_" directory) "_");
    simpl in Hprefix; [exact Hprefix|].
  eapply prefix_append. exact Hprefix.
Qed.

Lemma pluginFiles_android_prefix_witness :
  ∃ dir fileName,
    dir ∈ libraryPaths androidWorld
    ∧ (fileName, "/data/app/lib/libplugins_kf5_parts_foo.so")
        ∈ dirFiles androidWorld dir
    ∧ startsWith fileName ("libplugins_" +:+ replace "/" "_" "kf5/parts") = true.
Proof.
  apply pluginFiles_android_prefix; [reflexivity|]. vm_compute. left.
Defined.

(* ===================================================================== *)
(** ** More on the typed accessors                                        *)
(* ===================================================================== *)

(** X13: for a key that holds a string, the boolean [value(key, default)]
    does not look at the default: the result is true exactly when the
    string is ["true"], so ["false"] and any other text both give false. *)
Theorem value_bool_string_ignores_default (md : KPluginMetaData)
    (key s : string) (defaultValue : bool) :
  rawData md !! key = Some (JString s) →
  (value_bool md key defaultValue = true ↔ s = "true").
Proof.
  unfold value_bool, value, rawData. intros ->. simpl. apply String.eqb_eq.
Qed.

Lemma value_bool_string_ignores_default_witness :
  value_bool flaggedPlugin "X-Enabled" true = true ↔ "false" = "true".
Proof.
  apply value_bool_string_ignores_default. reflexivity.
Defined.

(** X14: an empty string under the key is treated differently by two
    overloads: the string [value(key, default)] returns the empty string,
    not the default, while the string-list overload returns the default;
    neither logs. *)
Theorem value_empty_string (W : World) (md : KPluginMetaData) (key : string)
    (defaultString : string) (defaultList : list string) :
  rawData md !! key = Some (JString "") →
  value_QString W md key defaultString = ("", [])
  ∧ value_QStringList W md key defaultList = (defaultList, []).
Proof.
  unfold value_QString, value_QStringList, value, rawData. intros ->.
  split; reflexivity.
Qed.

Lemma value_empty_string_witness :
  value_QString sampleWorld flaggedPlugin "X-Label" "unnamed" = ("", [])
  ∧ value_QStringList sampleWorld flaggedPlugin "X-Label" ["unnamed"]
    = (["unnamed"], []).
Proof.
  apply value_empty_string. reflexivity.
Defined.

Lemma variantToString_strings (number : Q → string) (l : list string) :
  variantToString number <$> (JString <$> l) = l.
Proof.
  induction l as [|s l IH]; [reflexivity|].
  rewrite !fmap_cons, IH. reflexivity.
Qed.

(** X15: for a key that holds an array of strings, the string
    [value(key, default)] returns the strings joined by commas and logs
    exactly one warning; the default is not used. *)
Theorem value_QString_joins_arrays (W : World) (md : KPluginMetaData)
    (key defaultValue : string) (l : list string) :
  rawData md !! key = Some (JArray (JString <$> l)) →
  fst (value_QString W md key defaultValue) = join l ","
  ∧ ∃ entry, snd (value_QString W md key defaultValue) = [entry]
             ∧ msgType entry = QtWarningMsg.
Proof.
  unfold value_QString, value, rawData. intros ->.
  cbn -[join]. rewrite variantToString_strings. eauto.
Qed.

Lemma value_QString_joins_arrays_witness :
  fst (value_QString sampleWorld flaggedPlugin "X-Tags" "none") = "a,b"
  ∧ ∃ entry, snd (value_QString sampleWorld flaggedPlugin "X-Tags" "none")
             = [entry]
             ∧ msgType entry = QtWarningMsg.
Proof.
  apply (value_QString_joins_arrays sampleWorld flaggedPlugin "X-Tags" "none"
           ["a"; "b"]).
  reflexivity.
Defined.

(** X16: for a value that is not an array, the string-list
    [value(key, default)] returns either the default or a list of exactly
    one non-empty string; and it logs a warning exactly when the value is an
    object. *)
Theorem value_QStringList_scalars (W : World) (md : KPluginMetaData)
    (key : string) (defaultValue : list string) :
  let v := value (rawData md) key in
  let result := value_QStringList W md key defaultValue in
  isArray v = false →
  (fst result = defaultValue ∨ ∃ s, s ≠ "" ∧ fst result = [s])
  ∧ (isObject v = true
     ↔ ∃ entry, entry ∈ snd result ∧ msgType entry = QtWarningMsg).
Proof.
  intros v result Harray. subst v result.
  unfold value_QStringList, rawData in *.
  destruct (value (m_metaData md) key) as [| b | d | s | a | o |];
    try discriminate Harray; cbn -[QString_isEmpty].
  - split; [now left|]. split; [discriminate|].
    intros (e & He & _). inversion He.
  - split.
    + right. exists (if b then "true" else "false").
      destruct b; split; (discriminate || reflexivity).
    + split; [discriminate|]. destruct b; cbn.
      all: intros (e & He & Hw); apply list_elem_of_singleton in He;
        subst e; discriminate Hw.
  - destruct (QString_isEmpty (QString_number W d)) eqn:Hempty; cbn.
    + split; [now left|]. split; [discriminate|].
      intros (e & He & _). inversion He.
    + split.
      * right. exists (QString_number W d).
        split; [now apply QString_isEmpty_false | reflexivity].
      * split; [discriminate|].
        intros (e & He & Hw). apply list_elem_of_singleton in He.
        subst e. discriminate Hw.
  - destruct (QString_isEmpty s) eqn:Hempty; cbn.
    + split; [now left|]. split; [discriminate|].
      intros (e & He & _). inversion He.
    + split.
      * right. exists s. split; [now apply QString_isEmpty_false | reflexivity].
      * split; [discriminate|].
        intros (e & He & Hw). apply list_elem_of_singleton in He.
        subst e. discriminate Hw.
  - split; [now left|]. split; [|reflexivity]. intros _.
    eexists. split; [left | reflexivity].
  - split; [now left|]. split; [discriminate|].
    intros (e & He & _). inversion He.
Qed.

Lemma value_QStringList_scalars_witness :
  (fst (value_QStringList sampleWorld flaggedPlugin "X-Nested" ["x"]) = ["x"]
   ∨ ∃ s, s ≠ ""
          ∧ fst (value_QStringList sampleWorld flaggedPlugin "X-Nested" ["x"])
            = [s])
  ∧ (isObject (value (rawData flaggedPlugin) "X-Nested") = true
     ↔ ∃ entry,
         entry ∈ snd (value_QStringList sampleWorld flaggedPlugin "X-Nested" ["x"])
         ∧ msgType entry = QtWarningMsg).
Proof.
  apply (value_QStringList_scalars sampleWorld flaggedPlugin "X-Nested" ["x"]).
  reflexivity.
Defined.

(* ===================================================================== *)
(** ** More on loading                                                    *)
(* ===================================================================== *)

(** What [loadFromJsonFile] leaves when the file opens and parses: a fresh
    private object with the document's object and the absolute path, and
    no diagnostic. *)
Lemma loadFromJsonFile_parsed (W : World) (this : KPluginMetaData)
    (file bytes : string) (doc : QJsonDocument) :
  readFile W file = Some bytes →
  parseJson W bytes = Parsed doc →
  loadFromJsonFile W this file
  = ({| m_requestedFileName := "";
        m_option := DoNotAllowEmptyMetaData;
        staticPlugin := None;
        m_metaData := QJsonDocument_object doc;
        m_fileName := absoluteFilePath W file |}, []).
Proof.
  intros Hread Hparse. unfold loadFromJsonFile, QJsonDocument_fromJson.
  rewrite Hread, Hparse. reflexivity.
Qed.

(** X17: a file that opens and parses, but not to a non-empty object (its
    top level is an array, say), gives an instance with empty metadata that
    is invalid, and nothing is logged about the file: the log holds what
    the default construction of [result] logged, at debug severity, and no
    warning. *)
Theorem fromJsonFile_silent_on_non_objects (W : World) (file bytes : string)
    (doc : QJsonDocument) :
  readFile W file = Some bytes →
  parseJson W bytes = Parsed doc →
  QJsonDocument_object doc = ∅ →
  snd (fromJsonFile W file) = snd (defaultConstructed W)
  ∧ Forall (λ e, msgType e = QtDebugMsg) (snd (fromJsonFile W file))
  ∧ rawData (fst (fromJsonFile W file)) = ∅
  ∧ fileName (fst (fromJsonFile W file)) = absoluteFilePath W file
  ∧ isValid (fst (fromJsonFile W file)) = false.
Proof.
  intros Hread Hparse Hobject. unfold fromJsonFile, bind.
  rewrite (loadFromJsonFile_parsed W _ file bytes doc Hread Hparse).
  cbn [fst snd]. rewrite app_nil_r, Hobject.
  split; [reflexivity|]. split; [apply fromPluginFile_log|].
  repeat split. now apply isValid_empty_metaData.
Qed.

Lemma fromJsonFile_silent_on_non_objects_witness :
  snd (fromJsonFile diskOnlyWorld "/etc/list.json")
  = snd (defaultConstructed diskOnlyWorld)
  ∧ Forall (λ e, msgType e = QtDebugMsg)
      (snd (fromJsonFile diskOnlyWorld "/etc/list.json"))
  ∧ rawData (fst (fromJsonFile diskOnlyWorld "/etc/list.json")) = ∅
  ∧ fileName (fst (fromJsonFile diskOnlyWorld "/etc/list.json"))
    = absoluteFilePath diskOnlyWorld "/etc/list.json"
  ∧ isValid (fst (fromJsonFile diskOnlyWorld "/etc/list.json")) = false.
Proof.
  apply (fromJsonFile_silent_on_non_objects diskOnlyWorld "/etc/list.json"
           "[]" (ArrayDocument [])); reflexivity.
Defined.

(** X18: a valid instance from [fromJsonFile] means the file was read and
    parsed to a non-empty object, which is the raw metadata, and nothing
    was logged about the file: the log holds what the default construction
    of [result] logged, at debug severity, and no warning. *)
Theorem fromJsonFile_valid_means_parsed (W : World) (file : string) :
  isValid (fst (fromJsonFile W file)) = true →
  snd (fromJsonFile W file) = snd (defaultConstructed W)
  ∧ Forall (λ e, msgType e = QtDebugMsg) (snd (fromJsonFile W file))
  ∧ ∃ bytes o,
      readFile W file = Some bytes
      ∧ parseJson W bytes = Parsed (ObjectDocument o)
      ∧ o ≠ ∅
      ∧ rawData (fst (fromJsonFile W file)) = o.
Proof.
  unfold fromJsonFile, bind. cbn [fst snd].
  destruct (readFile W file) as [bytes|] eqn:Hread.
  - destruct (parseJson W bytes) as [doc | e] eqn:Hparse.
    + rewrite (loadFromJsonFile_parsed W _ file bytes doc Hread Hparse).
      cbn [fst snd]. rewrite app_nil_r. intros Hvalid.
      split; [reflexivity|]. split; [apply fromPluginFile_log|].
      destruct doc as [| o |];
        try (rewrite isValid_empty_metaData in Hvalid by reflexivity;
             discriminate Hvalid).
      exists bytes, o.
      split; [reflexivity|]. split; [exact Hparse|]. split; [|reflexivity].
      intros Hempty. rewrite Hempty in Hvalid.
      rewrite isValid_empty_metaData in Hvalid by reflexivity.
      discriminate Hvalid.
    + intros Hvalid. exfalso.
      destruct (loadFromJsonFile_failure W (fst (defaultConstructed W)) file)
        as (_ & _ & Hinvalid); [right; eauto|].
      rewrite Hinvalid in Hvalid. discriminate Hvalid.
  - intros Hvalid. exfalso.
    destruct (loadFromJsonFile_failure W (fst (defaultConstructed W)) file)
      as (_ & _ & Hinvalid); [now left|].
    rewrite Hinvalid in Hvalid. discriminate Hvalid.
Qed.

Lemma fromJsonFile_valid_means_parsed_witness :
  snd (fromJsonFile diskOnlyWorld "/etc/foo.json")
  = snd (defaultConstructed diskOnlyWorld)
  ∧ Forall (λ e, msgType e = QtDebugMsg)
      (snd (fromJsonFile diskOnlyWorld "/etc/foo.json"))
  ∧ ∃ bytes o,
      readFile diskOnlyWorld "/etc/foo.json" = Some bytes
      ∧ parseJson diskOnlyWorld bytes = Parsed (ObjectDocument o)
      ∧ o ≠ ∅
      ∧ rawData (fst (fromJsonFile diskOnlyWorld "/etc/foo.json")) = o.
Proof.
  apply fromJsonFile_valid_means_parsed. reflexivity.
Defined.

(** X19: constructing from a plugin file with [DoNotAllowEmptyMetaData]
    logs nothing exactly when the metadata obtained is not empty; otherwise
    it logs one entry, at debug severity. *)
Theorem fromPluginFile_quiet_iff_metadata (W : World) (pluginFile : string) :
  let r := fromPluginFile W pluginFile DoNotAllowEmptyMetaData in
  (snd r = [] ↔ rawData (fst r) ≠ ∅)
  ∧ (rawData (fst r) = ∅ →
     ∃ entry, snd r = [entry] ∧ msgType entry = QtDebugMsg).
Proof.
  unfold fromPluginFile, rawData.
  destruct (isEmpty (loader_metaData (getPluginLoaderForPath W pluginFile)));
    cbn -[isEmpty].
  - split; [|eauto]. split; [discriminate | intros H; now contradiction H].
  - destruct (isEmpty (toObject (value _ "MetaData"))) eqn:Hempty; cbn.
    + apply isEmpty_true in Hempty. rewrite Hempty.
      split; [|eauto]. split; [discriminate | intros H; now contradiction H].
    + apply isEmpty_false in Hempty. split; [tauto|]. intros H.
      now contradiction Hempty.
Qed.

(** X20: the constructor from a static plugin prefers what the plugin
    embeds: the caller's metadata is used only when the plugin embeds none,
    so the result has empty metadata only when both are empty; the result is
    always marked static. *)
Theorem fromStaticPlugin_metadata (W : World) (p : QStaticPlugin)
    (metaData : QJsonObject) :
  let embedded := toObject (value (QStaticPlugin_metaData p) "MetaData") in
  let md := fromStaticPlugin W p metaData in
  (embedded ≠ ∅ → rawData md = embedded)
  ∧ (embedded = ∅ → rawData md = metaData)
  ∧ (rawData md = ∅ ↔ embedded = ∅ ∧ metaData = ∅)
  ∧ isStaticPlugin md = true.
Proof.
  intros embedded md. unfold md, fromStaticPlugin, loadStaticPlugin, rawData.
  cbn -[isEmpty]. fold embedded.
  destruct (isEmpty embedded) eqn:Hempty.
  - apply isEmpty_true in Hempty. rewrite Hempty. repeat split; tauto.
  - apply isEmpty_false in Hempty. repeat split; tauto.
Qed.

(* ===================================================================== *)
(** ** More on identity, visibility and MIME types                        *)
(* ===================================================================== *)

(** X21: without an identifier there is no validity: an instance that has
    no file name and whose ["KPlugin"] object gives no non-empty string
    under ["Id"] is invalid, even with [AllowEmptyMetaData] and however
    much other metadata it holds. *)
Theorem isValid_needs_identifier (md : KPluginMetaData) :
  fileName md = "" →
  (rootObject md !! "Id" = None
   ∨ ∃ v, rootObject md !! "Id" = Some v ∧ toString v = "") →
  isValid md = false.
Proof.
  intros Hfile Hid. unfold isValid.
  rewrite (pluginId_without_Id md Hid), Hfile. reflexivity.
Qed.

Lemma isValid_needs_identifier_witness :
  isValid (staticMetaData sampleWorld bareStaticPlugin AllowEmptyMetaData)
  = false.
Proof.
  apply isValid_needs_identifier; [reflexivity | left; reflexivity].
Defined.

(** X22: [isHidden()] is true only for the JSON boolean [true] under
    ["Hidden"] in the ["KPlugin"] object; unlike ["EnabledByDefault"], the
    string ["true"] does not count. *)
Theorem isHidden_iff (md : KPluginMetaData) :
  isHidden md = true ↔ rootObject md !! "Hidden" = Some (JBool true).
Proof.
  unfold isHidden, value.
  destruct (rootObject md !! "Hidden") as [[| [] | | | | |]|]; simpl;
    split; congruence.
Qed.

(** X23: a plugin whose ["MimeTypes"] is neither an array nor a string
    (absent, for instance) supports no MIME type at all, whatever the MIME
    database says about inheritance. *)
Theorem supportsMimeType_none_declared (W : World) (md : KPluginMetaData)
    (mimeType : string) :
  isArray (value (rootObject md) "MimeTypes") = false →
  isString (value (rootObject md) "MimeTypes") = false →
  supportsMimeType W md mimeType = false.
Proof.
  intros Harray Hstring. unfold supportsMimeType, mimeTypes.
  destruct (value (rootObject md) "MimeTypes"); try discriminate; simpl;
    now destruct (mimeTypeIsValid W mimeType).
Qed.

Lemma supportsMimeType_none_declared_witness :
  supportsMimeType sampleWorld countedPlugin "text/plain" = false.
Proof.
  apply supportsMimeType_none_declared; reflexivity.
Defined.

(** X24: ["MimeTypes"] may be a single string instead of an array: it then
    declares exactly that type, and the type is supported. *)
Theorem supportsMimeType_single_string (W : World) (md : KPluginMetaData)
    (mimeType : string) :
  rootObject md !! "MimeTypes" = Some (JString mimeType) →
  mimeTypes W md = [mimeType] ∧ supportsMimeType W md mimeType = true.
Proof.
  intros Hlookup. unfold supportsMimeType, mimeTypes, value.
  rewrite Hlookup. simpl. split; [reflexivity|].
  now rewrite String.eqb_refl.
Qed.

Lemma supportsMimeType_single_string_witness :
  mimeTypes sampleWorld flaggedPlugin = ["text/plain"]
  ∧ supportsMimeType sampleWorld flaggedPlugin "text/plain" = true.
Proof.
  apply supportsMimeType_single_string. reflexivity.
Defined.
